(** * Task manager backend: access scoping, task state machine, event fanout

    A shallow embedding of the Express/Mongoose/Socket.IO backend:
    - models/User.js, models/Task.js      (schemas, hooks, virtuals)
    - middleware/auth.js                  (protect, authorize, checkTaskAccess)
    - controllers/authController.js       (register, login)
    - controllers/taskController.js       (task CRUD, bulk update, comments)
    - controllers/userController.js       (user listing)
    - routes/taskRoutes.js, userRoutes.js (middleware chains)
    - socket/socketHandlers.js            (socket authentication, rooms)

    Collections are lists of documents in insertion order, requests and
    responses are records, handlers are functions from the request and the
    database to a response, the new database and the emitted events.
    The percentage of the subtaskProgress virtual is computed as
    JavaScript computes it, on IEEE-754 binary64 values ([spec_float] at
    precision 53). *)

From Stdlib Require Import String Ascii List ZArith Bool Lia.
From Stdlib Require Import SpecFloat.
From Stdlib Require Import DecimalString Sorted Permutation.
Import ListNotations.

Open Scope string_scope.
Open Scope list_scope.
Open Scope Z_scope.

(* ===================================================================== *)
(** ** Data model (models/User.js, models/Task.js)                        *)
(* ===================================================================== *)

(** ObjectIds are only ever compared through [toString()]. *)
Definition ObjectId := string.

(** Dates are milliseconds since the epoch. *)
Definition Date := Z.

Inductive Role := admin | vendor | customer.
Inductive Status := todo | inprogress | done.
Inductive Priority := low | medium | high.

Definition Role_eqb (a b : Role) : bool :=
  match a, b with
  | admin, admin | vendor, vendor | customer, customer => true
  | _, _ => false
  end.

Definition Status_eqb (a b : Status) : bool :=
  match a, b with
  | todo, todo | inprogress, inprogress | done, done => true
  | _, _ => false
  end.

Definition Priority_eqb (a b : Priority) : bool :=
  match a, b with
  | low, low | medium, medium | high, high => true
  | _, _ => false
  end.

(** userSchema *)
Record User := mkUser {
  user_id : ObjectId;
  name : string;
  email : string;
  password : string;
  role : Role;
  isActive : bool;
  lastLogin : option Date
}.

(** subtaskSchema *)
Record Subtask := mkSubtask {
  subtask_id : ObjectId;
  text : string;
  completed : bool
}.

(** commentSchema *)
Record Comment := mkComment {
  comment_text : string;
  author : string;
  authorId : ObjectId;
  authorRole : Role;
  comment_createdAt : Date
}.

(** taskSchema *)
Record Task := mkTask {
  task_id : ObjectId;
  title : string;
  description : string;
  priority : Priority;
  status : Status;
  assignee : string;
  assigneeId : ObjectId;
  createdBy : ObjectId;
  dueDate : Date;
  tags : list string;
  subtasks : list Subtask;
  timeSpent : Z;
  comments : list Comment;
  isArchived : bool;
  completedAt : option Date;
  createdAt : Date;
  updatedAt : Date
}.

Definition set_updatedAt (d : Date) (t : Task) : Task :=
  mkTask (task_id t) (title t) (description t) (priority t) (status t)
         (assignee t) (assigneeId t) (createdBy t) (dueDate t) (tags t)
         (subtasks t) (timeSpent t) (comments t) (isArchived t)
         (completedAt t) (createdAt t) d.

Definition set_completedAt (c : option Date) (t : Task) : Task :=
  mkTask (task_id t) (title t) (description t) (priority t) (status t)
         (assignee t) (assigneeId t) (createdBy t) (dueDate t) (tags t)
         (subtasks t) (timeSpent t) (comments t) (isArchived t)
         c (createdAt t) (updatedAt t).

Definition set_status (s : Status) (t : Task) : Task :=
  mkTask (task_id t) (title t) (description t) (priority t) s
         (assignee t) (assigneeId t) (createdBy t) (dueDate t) (tags t)
         (subtasks t) (timeSpent t) (comments t) (isArchived t)
         (completedAt t) (createdAt t) (updatedAt t).

Definition set_comments (c : list Comment) (t : Task) : Task :=
  mkTask (task_id t) (title t) (description t) (priority t) (status t)
         (assignee t) (assigneeId t) (createdBy t) (dueDate t) (tags t)
         (subtasks t) (timeSpent t) c (isArchived t)
         (completedAt t) (createdAt t) (updatedAt t).

(** JavaScript truthiness of a [Date | null] field: every Date object is
    truthy, [null] is falsy. *)
Definition truthy {A} (o : option A) : bool :=
  match o with Some _ => true | None => false end.

(* --------------------------------------------------------------------- *)
(** *** Mongoose documents and the pre-save hook                          *)
(* --------------------------------------------------------------------- *)

(** A hydrated document: the field values and the paths changed since it
    was loaded (what [isModified] consults). *)
Record Doc := mkDoc {
  fields : Task;
  modifiedPaths : list string
}.

Definition isModified (d : Doc) (path : string) : bool :=
  existsb (String.eqb path) (modifiedPaths d).

(** [Task.findById] hands out a document with nothing modified. *)
Definition hydrate (t : Task) : Doc := mkDoc t [].

(** [doc.status = s]: Mongoose marks the path only when the value differs. *)
Definition assign_status (s : Status) (d : Doc) : Doc :=
  if Status_eqb s (status (fields d)) then d
  else mkDoc (set_status s (fields d)) ("status" :: modifiedPaths d).

(** [taskSchema.pre("save", ...)].  [now] is the clock at the time of the
    save; it feeds both [Date.now()] and [new Date()]. *)
Definition pre_save (now : Date) (d : Doc) : Doc :=
  let t1 := set_updatedAt now (fields d) in
  let t2 :=
    if isModified d "status" && Status_eqb (status t1) done
       && negb (truthy (completedAt t1))
    then set_completedAt (Some now) t1 else t1 in
  let t3 :=
    if isModified d "status" && negb (Status_eqb (status t2) done)
       && truthy (completedAt t2)
    then set_completedAt None t2 else t2 in
  mkDoc t3 (modifiedPaths d).

(** After a successful save Mongoose resets the modification tracking. *)
Definition after_save (d : Doc) : Doc := mkDoc (fields d) [].

(** The save-time status transition: assign the target status, run the
    hook, reset the tracking. *)
Definition applyStatus (s : Status) (now : Date) (d : Doc) : Doc :=
  after_save (pre_save now (assign_status s d)).

(* --------------------------------------------------------------------- *)
(** *** The subtaskProgress virtual                                       *)
(* --------------------------------------------------------------------- *)









(* ===================================================================== *)
(** ** Collaborators: environment, tokens, collections                    *)
(* ===================================================================== *)

(** What the process gets from outside: [process.env], bcrypt and the
    database's regular-expression matcher. *)
Record Env := mkEnv {
  JWT_SECRET : string;
  JWT_EXPIRE : option Z;                       (* seconds, when set *)
  bcrypt_compare : string -> string -> bool;   (* entered, stored *)
  regex_i : string -> string -> bool           (* pattern, subject *)
}.

(** The claims of a token: the two keys this code base writes or reads. *)
Record Payload := mkPayload {
  payload_id : option ObjectId;       (* key "id" *)
  payload_userId : option ObjectId    (* key "userId" *)
}.

(** A token string is either the output of [jwt.sign] (claims, signing
    key, expiry in seconds) or some other text. *)
Inductive Token :=
| Signed (claims : Payload) (key : string) (exp : option Z)
| Garbage (raw : string).

Definition jwt_sign (claims : Payload) (key : string) (exp : option Z) : Token :=
  Signed claims key exp.

(** [jwt.verify]: [None] stands for the thrown error (bad signature,
    malformed or expired token). *)
Definition jwt_verify (now : Date) (token : Token) (key : string) : option Payload :=
  match token with
  | Signed claims k exp =>
      if String.eqb k key then
        match exp with
        | Some e => if e <=? now / 1000 then None else Some claims
        | None => Some claims
        end
      else None
  | Garbage _ => None
  end.

(** A non-empty string is truthy. *)
Definition Token_truthy (t : Token) : bool :=
  match t with
  | Signed _ _ _ => true
  | Garbage raw => negb (String.eqb raw "")
  end.

Record Db := mkDb {
  users : list User;
  tasks : list Task
}.

(** [User.findById]; [findById(undefined)] queries [_id: null] and finds
    nothing. *)
Definition User_findById (id : option ObjectId) (us : list User) : option User :=
  match id with
  | Some i => find (fun u => String.eqb (user_id u) i) us
  | None => None
  end.

(** [User.findByEmail] *)
Definition User_findByEmail (e : string) (us : list User) : option User :=
  find (fun u => String.eqb (email u) e) us.

(** [Task.findById] *)
Definition Task_findById (id : ObjectId) (ts : list Task) : option Task :=
  find (fun t => String.eqb (task_id t) id) ts.

(** Replace the stored document that carries the same [_id]. *)
Definition Task_replace (t' : Task) (ts : list Task) : list Task :=
  map (fun t => if String.eqb (task_id t) (task_id t') then t' else t) ts.

Definition User_replace (u' : User) (us : list User) : list User :=
  map (fun u => if String.eqb (user_id u) (user_id u') then u' else u) us.

(* ===================================================================== *)
(** ** Requests, responses, events                                        *)
(* ===================================================================== *)

(** The Authorization header, split at spaces: its first word and, when
    there is one, its second word. *)
Record AuthHeader := mkAuthHeader {
  first_word : string;
  second_word : option Token
}.

(** A request with body (or query) of type [B].  [validationErrors] is
    what the route's express-validator chain left in the request,
    [req_user] is [req.user], [req_io] says whether [req.io] is attached. *)
Record Req (B : Type) := mkReq {
  headers_authorization : option AuthHeader;
  params_id : ObjectId;
  body : B;
  validationErrors : list string;
  req_user : option User;
  req_io : bool
}.
Arguments mkReq {B}.
Arguments headers_authorization {B}.
Arguments params_id {B}.
Arguments body {B}.
Arguments validationErrors {B}.
Arguments req_user {B}.
Arguments req_io {B}.

Definition with_user {B} (u : User) (req : Req B) : Req B :=
  mkReq (headers_authorization req) (params_id req) (body req)
        (validationErrors req) (Some u) (req_io req).

Inductive Data :=
| NoData
| DataErrors (errors : list string)
| DataTask (t : Task)
| DataTasks (ts : list Task) (total : nat)
| DataComment (c : Comment)
| DataModified (modifiedCount : nat)
| DataUser (u : User)
| DataUserWithStats (u : User) (total todo_ inprogress_ done_ : nat) (totalTimeSpent : Z)
| DataUsers (us : list User) (total : nat)
| DataToken (token : Token) (profile : User).

Record Response := mkResponse {
  statusCode : nat;
  success : bool;
  message : string;
  data : Data
}.

(** The failure kinds of the specification, read off the status code. *)
Definition Unauthorized (r : Response) : Prop := statusCode r = 401%nat.
Definition Forbidden (r : Response) : Prop := statusCode r = 403%nat.

(** What a middleware does: pass the request on, answer, or fail with an
    exception that Express hands to the error handler. *)
Inductive MwResult (B : Type) :=
| Next (req : Req B)
| Respond (res : Response)
| NextError (err : string).
Arguments Next {B}.
Arguments Respond {B}.
Arguments NextError {B}.

(** Modelled from the spec: middleware/errorHandler.js is not among the
    sources; section 7 says an unanticipated failure is surfaced as a
    generic internal failure distinct from the other kinds. *)
Definition errorHandler (err : string) : Response :=
  mkResponse 500 false err NoData.

Inductive EventData :=
| EvTask (t : Task)
| EvTasks (ts : list Task)
| EvTaskId (taskId : ObjectId)
| EvTaskIds (taskIds : list ObjectId)
| EvComment (taskId : ObjectId) (c : Comment)
| EvClient (taskId : string) (content : string).

(** A live connection: the user it authenticated as and its rooms. *)
Record Socket := mkSocket {
  socket_id : nat;
  socket_user : User;
  rooms : list string
}.

Inductive Emit :=
| io_emit (event : string) (d : EventData)
| socket_to_emit (sender : nat) (room : string) (event : string) (d : EventData).

Definition in_room (room : string) (s : Socket) : bool :=
  existsb (String.eqb room) (rooms s).

(** Who receives an emit: [io.emit] reaches every connection,
    [socket.to(room).emit] the members of the room except the sender. *)
Definition recipients (conns : list Socket) (e : Emit) : list Socket :=
  match e with
  | io_emit _ _ => conns
  | socket_to_emit sender room _ _ =>
      filter (fun s => in_room room s && negb (Nat.eqb (socket_id s) sender)) conns
  end.

(** The result of a controller: the response, the database afterwards and
    the events handed to Socket.IO. *)
Record Result := mkResult {
  response : Response;
  db_after : Db;
  emitted : list Emit
}.

Definition reply (r : Response) (db : Db) : Result := mkResult r db [].

Definition validationFailed (errors : list string) : Response :=
  mkResponse 400 false "Validation failed" (DataErrors errors).

(* ===================================================================== *)
(** ** middleware/auth.js                                                 *)
(* ===================================================================== *)

Definition notAuthorized : Response :=
  mkResponse 401 false "Not authorized to access this route" NoData.

(** [protect] *)
Definition protect {B} (env : Env) (now : Date) (db : Db) (req : Req B) : MwResult B :=
  let token :=
    match headers_authorization req with
    | Some h => if String.prefix "Bearer" (first_word h) then second_word h else None
    | None => None
    end in
  match token with
  | None => Respond notAuthorized
  | Some tok =>
      if negb (Token_truthy tok) then Respond notAuthorized
      else
        match jwt_verify now tok (JWT_SECRET env) with
        | None => Respond notAuthorized
        | Some decoded =>
            match User_findById (payload_userId decoded) (users db) with
            | None => Respond (mkResponse 401 false "No user found with this token" NoData)
            | Some user =>
                if negb (isActive user)
                then Respond (mkResponse 401 false "User account is deactivated" NoData)
                else Next (with_user user req)
            end
        end
  end.

(** [authorize(...roles)]: reading [req.user.role] with no [req.user]
    throws a TypeError. *)
Definition authorize {B} (roles : list Role) (req : Req B) : MwResult B :=
  match req_user req with
  | None => NextError "TypeError: Cannot read properties of undefined (reading 'role')"
  | Some u =>
      if negb (existsb (Role_eqb (role u)) roles)
      then Respond (mkResponse 403 false "User role is not authorized to access this route" NoData)
      else Next req
  end.

Definition taskNotFound : Response := mkResponse 404 false "Task not found" NoData.
Definition taskForbidden : Response :=
  mkResponse 403 false "Not authorized to access this task" NoData.

(** [checkTaskAccess]; on the routes that use it [req.params.id] is set. *)
Definition checkTaskAccess {B} (db : Db) (req : Req B) : MwResult B :=
  match req_user req with
  | None => NextError "TypeError: Cannot read properties of undefined (reading 'role')"
  | Some user =>
      if Role_eqb (role user) admin then Next req
      else
        match Task_findById (params_id req) (tasks db) with
        | None => Respond taskNotFound
        | Some task =>
            if Role_eqb (role user) vendor
               && (String.eqb (createdBy task) (user_id user)
                   || String.eqb (assigneeId task) (user_id user))
            then Next req
            else if Role_eqb (role user) customer
                    && String.eqb (assigneeId task) (user_id user)
            then Next req
            else Respond taskForbidden
        end
  end.

(** [generateToken]: [expiresIn] is [JWT_EXPIRE] or seven days. *)
Definition generateToken (env : Env) (now : Date) (id : ObjectId) : Token :=
  jwt_sign (mkPayload (Some id) None) (JWT_SECRET env)
           (Some (now / 1000 + match JWT_EXPIRE env with Some s => s | None => 604800 end)).

(* ===================================================================== *)
(** ** controllers/authController.js                                      *)
(* ===================================================================== *)

Record RegisterBody := mkRegisterBody {
  register_name : string;
  register_email : string;
  register_password : string;
  register_role : option Role
}.

Record LoginBody := mkLoginBody {
  login_email : string;
  login_password : string
}.

(** [register]; [newId] is the ObjectId the driver generates and [hashed]
    the bcrypt hash the user pre-save hook stores. *)
Definition register (env : Env) (now : Date) (newId : ObjectId) (hashed : string)
    (db : Db) (req : Req RegisterBody) : Result :=
  if negb (length (validationErrors req) =? 0)%nat
  then reply (validationFailed (validationErrors req)) db
  else
    match User_findByEmail (register_email (body req)) (users db) with
    | Some _ => reply (mkResponse 400 false "User already exists with this email" NoData) db
    | None =>
        let user :=
          mkUser newId (register_name (body req)) (register_email (body req)) hashed
                 (match register_role (body req) with Some r => r | None => customer end)
                 true None in
        let token := generateToken env now (user_id user) in
        mkResult (mkResponse 201 true "User registered successfully" (DataToken token user))
                 (mkDb (users db ++ [user]) (tasks db)) []
    end.

Definition invalidCredentials : Response :=
  mkResponse 401 false "Invalid Email or Password" NoData.

(** [login] *)
Definition login (env : Env) (now : Date) (db : Db) (req : Req LoginBody) : Result :=
  if negb (length (validationErrors req) =? 0)%nat
  then reply (validationFailed (validationErrors req)) db
  else
    match User_findByEmail (login_email (body req)) (users db) with
    | None => reply invalidCredentials db
    | Some user =>
        if negb (isActive user)
        then reply (mkResponse 401 false
                      "Account is deactivated. Please contact administrator." NoData) db
        else if negb (bcrypt_compare env (login_password (body req)) (password user))
        then reply invalidCredentials db
        else
          let user' := mkUser (user_id user) (name user) (email user) (password user)
                              (role user) (isActive user) (Some now) in
          let token := jwt_sign (mkPayload None (Some (user_id user))) (JWT_SECRET env) None in
          mkResult (mkResponse 200 true "Login successful" (DataToken token user'))
                   (mkDb (User_replace user' (users db)) (tasks db)) []
    end.

(* ===================================================================== *)
(** ** socket/socketHandlers.js                                           *)
(* ===================================================================== *)

(** [authenticateSocket]: the user attached to the socket, or the error
    passed to [next]. *)
Definition authenticateSocket (env : Env) (now : Date) (db : Db)
    (handshake_auth_token : option Token) : User + string :=
  match handshake_auth_token with
  | None => inr "Authentication error: No token provided"
  | Some token =>
      if negb (Token_truthy token) then inr "Authentication error: No token provided"
      else
        match jwt_verify now token (JWT_SECRET env) with
        | None => inr "Authentication error: Invalid token"
        | Some decoded =>
            match User_findById (payload_id decoded) (users db) with
            | None => inr "Authentication error: Invalid user"
            | Some user =>
                if negb (isActive user) then inr "Authentication error: Invalid user"
                else inl user
            end
        end
  end.

Definition Role_name (r : Role) : string :=
  match r with admin => "admin" | vendor => "vendor" | customer => "customer" end.

(** [io.on('connection')]: the personal room and the role room. *)
Definition on_connection (sid : nat) (user : User) (conns : list Socket) : list Socket :=
  let personal := ("user_" ++ user_id user)%string in
  let by_role := ("role_" ++ Role_name (role user))%string in
  conns ++ [mkSocket sid user [personal; by_role]].

Definition update_rooms (sid : nat) (f : list string -> list string)
    (conns : list Socket) : list Socket :=
  map (fun s => if Nat.eqb (socket_id s) sid
                then mkSocket (socket_id s) (socket_user s) (f (rooms s)) else s) conns.

(** [socket.on('joinTask')] and [socket.on('leaveTask')] *)
Definition on_joinTask (sid : nat) (taskId : string) (conns : list Socket) : list Socket :=
  let room := ("task_" ++ taskId)%string in
  update_rooms sid (fun rs => if existsb (String.eqb room) rs then rs else rs ++ [room]) conns.

Definition on_leaveTask (sid : nat) (taskId : string) (conns : list Socket) : list Socket :=
  update_rooms sid (filter (fun r => negb (String.eqb ("task_" ++ taskId)%string r))) conns.

(** [socket.on('taskUpdate')]: the task room, then admins and vendors. *)
Definition on_taskUpdate (sid : nat) (taskId content : string) : list Emit :=
  [ socket_to_emit sid ("task_" ++ taskId)%string "taskUpdated" (EvClient taskId content);
    socket_to_emit sid "role_admin" "taskUpdated" (EvClient taskId content);
    socket_to_emit sid "role_vendor" "taskUpdated" (EvClient taskId content) ].

(** Everyone some emit of the list reaches. *)
Definition receives (conns : list Socket) (es : list Emit) (s : Socket) : Prop :=
  exists e, In e es /\ In s (recipients conns e).

(* ===================================================================== *)
(** ** Queries and updates on the task collection                         *)
(* ===================================================================== *)

Definition string_truthy (s : string) : bool := negb (String.eqb s "").

(** One alternative of an [$or]. *)
Inductive Clause :=
| by_assigneeId (id : ObjectId)
| by_createdBy (id : ObjectId)
| title_regex (pattern : string)
| description_regex (pattern : string).

(** A filter object: every key the controllers ever set. *)
Record Filter := mkFilter {
  filter_id_in : option (list ObjectId);     (* _id: { $in } *)
  filter_isArchived : option bool;
  filter_assigneeId : option ObjectId;
  filter_or : option (list Clause);          (* $or *)
  filter_status : option Status;
  filter_priority : option Priority;
  filter_tags_in : option (list string)      (* tags: { $in } *)
}.

Definition set_filter_assigneeId (id : ObjectId) (q : Filter) : Filter :=
  mkFilter (filter_id_in q) (filter_isArchived q) (Some id) (filter_or q)
           (filter_status q) (filter_priority q) (filter_tags_in q).

Definition set_filter_or (cs : list Clause) (q : Filter) : Filter :=
  mkFilter (filter_id_in q) (filter_isArchived q) (filter_assigneeId q) (Some cs)
           (filter_status q) (filter_priority q) (filter_tags_in q).

Definition set_filter_status (s : Status) (q : Filter) : Filter :=
  mkFilter (filter_id_in q) (filter_isArchived q) (filter_assigneeId q) (filter_or q)
           (Some s) (filter_priority q) (filter_tags_in q).

Definition set_filter_priority (p : Priority) (q : Filter) : Filter :=
  mkFilter (filter_id_in q) (filter_isArchived q) (filter_assigneeId q) (filter_or q)
           (filter_status q) (Some p) (filter_tags_in q).

Definition set_filter_tags_in (ts : list string) (q : Filter) : Filter :=
  mkFilter (filter_id_in q) (filter_isArchived q) (filter_assigneeId q) (filter_or q)
           (filter_status q) (filter_priority q) (Some ts).

(** An absent key constrains nothing. *)
Definition holds {A} (o : option A) (p : A -> bool) : bool :=
  match o with Some a => p a | None => true end.

Definition clause_matches (env : Env) (t : Task) (c : Clause) : bool :=
  match c with
  | by_assigneeId id => String.eqb (assigneeId t) id
  | by_createdBy id => String.eqb (createdBy t) id
  | title_regex p => regex_i env p (title t)
  | description_regex p => regex_i env p (description t)
  end.

(** Does the document satisfy the filter. *)
Definition matches (env : Env) (q : Filter) (t : Task) : bool :=
  holds (filter_id_in q) (existsb (String.eqb (task_id t)))
  && holds (filter_isArchived q) (Bool.eqb (isArchived t))
  && holds (filter_assigneeId q) (String.eqb (assigneeId t))
  && holds (filter_or q) (existsb (clause_matches env t))
  && holds (filter_status q) (Status_eqb (status t))
  && holds (filter_priority q) (Priority_eqb (priority t))
  && holds (filter_tags_in q)
       (fun wanted => existsb (fun tag => existsb (String.eqb tag) wanted) (tags t)).

(** [Task.find(query)], in collection order. *)
Definition Task_find (env : Env) (q : Filter) (ts : list Task) : list Task :=
  filter (matches env q) ts.

(** An update document: the schema paths a request body can set. *)
Record Patch := mkPatch {
  patch_title : option string;
  patch_description : option string;
  patch_priority : option Priority;
  patch_status : option Status;
  patch_assignee : option string;
  patch_assigneeId : option ObjectId;
  patch_createdBy : option ObjectId;
  patch_dueDate : option Date;
  patch_tags : option (list string);
  patch_subtasks : option (list Subtask);
  patch_timeSpent : option Z;
  patch_comments : option (list Comment);
  patch_isArchived : option bool;
  patch_completedAt : option (option Date)
}.

Definition set_patch_assignee (n : string) (p : Patch) : Patch :=
  mkPatch (patch_title p) (patch_description p) (patch_priority p) (patch_status p)
          (Some n) (patch_assigneeId p) (patch_createdBy p) (patch_dueDate p)
          (patch_tags p) (patch_subtasks p) (patch_timeSpent p) (patch_comments p)
          (patch_isArchived p) (patch_completedAt p).

Definition or_keep {A} (o : option A) (old : A) : A :=
  match o with Some v => v | None => old end.

(** What an update operation ([findByIdAndUpdate], [updateMany]) writes
    to one document: the given paths are set, the schema's [timestamps]
    option stamps [updatedAt], and no save hook runs. *)
Definition applyUpdate (p : Patch) (now : Date) (t : Task) : Task :=
  mkTask (task_id t)
         (or_keep (patch_title p) (title t))
         (or_keep (patch_description p) (description t))
         (or_keep (patch_priority p) (priority t))
         (or_keep (patch_status p) (status t))
         (or_keep (patch_assignee p) (assignee t))
         (or_keep (patch_assigneeId p) (assigneeId t))
         (or_keep (patch_createdBy p) (createdBy t))
         (or_keep (patch_dueDate p) (dueDate t))
         (or_keep (patch_tags p) (tags t))
         (or_keep (patch_subtasks p) (subtasks t))
         (or_keep (patch_timeSpent p) (timeSpent t))
         (or_keep (patch_comments p) (comments t))
         (or_keep (patch_isArchived p) (isArchived t))
         (or_keep (patch_completedAt p) (completedAt t))
         (createdAt t)
         now.

(** [Task.findByIdAndUpdate(id, update, { new: true })]: the updated
    document (or null) and the collection afterwards. *)
Definition Task_findByIdAndUpdate (id : ObjectId) (p : Patch) (now : Date)
    (ts : list Task) : option Task * list Task :=
  match Task_findById id ts with
  | Some t => let t' := applyUpdate p now t in (Some t', Task_replace t' ts)
  | None => (None, ts)
  end.

Definition Task_eq_dec (a b : Task) : {a = b} + {a <> b}.
Proof. repeat decide equality. Defined.

(** [Task.updateMany(query, update)]: the collection afterwards and
    [modifiedCount], the matched documents the update changed. *)
Definition Task_updateMany (env : Env) (q : Filter) (p : Patch) (now : Date)
    (ts : list Task) : list Task * nat :=
  (map (fun t => if matches env q t then applyUpdate p now t else t) ts,
   length (filter (fun t => matches env q t
                            && (if Task_eq_dec (applyUpdate p now t) t then false else true))
                  ts)).

(** [doc.save()]: the pre-save hook runs, the document is written. *)
Definition Task_save (now : Date) (d : Doc) (ts : list Task) : Doc * list Task :=
  let d' := pre_save now d in
  (after_save d', Task_replace (fields d') ts).

(* ===================================================================== *)
(** ** controllers/taskController.js                                      *)
(* ===================================================================== *)

Record TasksQuery := mkTasksQuery {
  query_status : option Status;
  query_priority : option Priority;
  query_assigneeId : option ObjectId;
  query_tags : option string;
  query_search : option string;
  query_page : nat;       (* parseInt(page), 1 when absent *)
  query_limit : nat       (* parseInt(limit), 50 when absent *)
}.

Fixpoint split_comma (s cur : string) : list string :=
  match s with
  | EmptyString => [cur]
  | String c rest =>
      if Ascii.eqb c ","%char then cur :: split_comma rest ""
      else split_comma rest (cur ++ String c "")%string
  end.

Definition thrown (err : string) (db : Db) : Result := reply (errorHandler err) db.

Definition no_user : string :=
  "TypeError: Cannot read properties of undefined (reading 'role')".

(** [getTasks], lines "Build query based on user role" and "Role-based
    filtering": the scope of the listing. *)
Definition getTasks_scope (user : User) : Filter :=
  let query := mkFilter None (Some false) None None None None None in
  if Role_eqb (role user) customer then set_filter_assigneeId (user_id user) query
  else if Role_eqb (role user) vendor
  then set_filter_or [by_assigneeId (user_id user); by_createdBy (user_id user)] query
  else query.

(** [getTasks], "Apply filters". *)
Definition getTasks_query (user : User) (q : TasksQuery) : Filter :=
  let query := getTasks_scope user in
  let query := match query_status q with Some s => set_filter_status s query | None => query end in
  let query := match query_priority q with Some p => set_filter_priority p query | None => query end in
  let query := match query_assigneeId q with
               | Some a => if string_truthy a then set_filter_assigneeId a query else query
               | None => query end in
  let query := match query_tags q with
               | Some ts => if string_truthy ts then set_filter_tags_in (split_comma ts "") query
                            else query
               | None => query end in
  match query_search q with
  | Some s => if string_truthy s then set_filter_or [title_regex s; description_regex s] query
              else query
  | None => query
  end.

(** [getTasks].  The page is cut from the matching documents in
    collection order; the [sort] stage only permutes them. *)
Definition getTasks (env : Env) (db : Db) (req : Req TasksQuery) : Result :=
  if negb (length (validationErrors req) =? 0)%nat
  then reply (validationFailed (validationErrors req)) db
  else
    match req_user req with
    | None => thrown no_user db
    | Some user =>
        let query := getTasks_query user (body req) in
        let found := Task_find env query (tasks db) in
        let skip := ((query_page (body req) - 1) * query_limit (body req))%nat in
        reply (mkResponse 200 true ""
                 (DataTasks (firstn (query_limit (body req)) (skipn skip found))
                            (length found))) db
    end.

Definition null_id : string :=
  "TypeError: Cannot read properties of null (reading '_id')".

(** [getTask]; [populate] turns a reference into the user it names, or
    into null. *)
Definition getTask (db : Db) (req : Req unit) : Result :=
  match Task_findById (params_id req) (tasks db) with
  | None => reply taskNotFound db
  | Some task =>
      let populated_assigneeId := User_findById (Some (assigneeId task)) (users db) in
      let populated_createdBy := User_findById (Some (createdBy task)) (users db) in
      match req_user req with
      | None => thrown no_user db
      | Some user =>
          let ok := reply (mkResponse 200 true "" (DataTask task)) db in
          let vendor_check :=
            if Role_eqb (role user) vendor then
              match populated_assigneeId with
              | None => thrown null_id db
              | Some a =>
                  if String.eqb (user_id a) (user_id user) then ok
                  else match populated_createdBy with
                       | None => thrown null_id db
                       | Some c => if String.eqb (user_id c) (user_id user) then ok
                                   else reply taskForbidden db
                       end
              end
            else ok in
          if Role_eqb (role user) customer then
            match populated_assigneeId with
            | None => thrown null_id db
            | Some a =>
                if negb (String.eqb (user_id a) (user_id user)) then reply taskForbidden db
                else vendor_check
            end
          else vendor_check
      end
  end.

Definition assigneeNotFound : Response :=
  mkResponse 400 false "Assignee not found" NoData.

Definition emit_if (io : bool) (e : Emit) : list Emit := if io then [e] else [].

(** [createTask]; the body carries the schema paths of the new task,
    [newId] is the generated ObjectId. *)
Definition createTask (now : Date) (newId : ObjectId) (db : Db) (req : Req Patch) : Result :=
  if negb (length (validationErrors req) =? 0)%nat
  then reply (validationFailed (validationErrors req)) db
  else
    match User_findById (patch_assigneeId (body req)) (users db) with
    | None => reply assigneeNotFound db
    | Some assignee_ =>
        match req_user req with
        | None => thrown "TypeError: Cannot read properties of undefined (reading '_id')" db
        | Some user =>
            match patch_title (body req), patch_dueDate (body req) with
            | Some title_, Some dueDate_ =>
                let b := body req in
                let fresh :=
                  mkTask newId title_ (or_keep (patch_description b) "")
                         (or_keep (patch_priority b) medium)
                         (or_keep (patch_status b) todo)
                         (name assignee_) (user_id assignee_) (user_id user) dueDate_
                         (or_keep (patch_tags b) []) (or_keep (patch_subtasks b) [])
                         (or_keep (patch_timeSpent b) 0) (or_keep (patch_comments b) [])
                         (or_keep (patch_isArchived b) false)
                         (or_keep (patch_completedAt b) None) now now in
                let d := pre_save now
                           (mkDoc fresh (if truthy (patch_status b) then ["status"] else [])) in
                let task := fields d in
                mkResult (mkResponse 201 true "Task created successfully" (DataTask task))
                         (mkDb (users db) (tasks db ++ [task]))
                         (emit_if (req_io req) (io_emit "taskCreated" (EvTask task)))
            | _, _ => thrown "ValidationError" db
            end
        end
    end.

(** "If assigneeId is being updated, verify the new assignee exists":
    the block [updateTask] and [bulkUpdateTasks] both start with.  [None]
    is the 400 answer, otherwise the update with [assignee] filled in. *)
Definition verify_assignee (db : Db) (update : Patch) : option Patch :=
  match patch_assigneeId update with
  | Some a =>
      if string_truthy a then
        match User_findById (Some a) (users db) with
        | None => None
        | Some assignee_ => Some (set_patch_assignee (name assignee_) update)
        end
      else Some update
  | None => Some update
  end.

(** [updateTask] *)
Definition updateTask (now : Date) (db : Db) (req : Req Patch) : Result :=
  if negb (length (validationErrors req) =? 0)%nat
  then reply (validationFailed (validationErrors req)) db
  else
    match Task_findById (params_id req) (tasks db) with
    | None => reply taskNotFound db
    | Some _ =>
        match verify_assignee db (body req) with
        | None => reply assigneeNotFound db
        | Some update =>
            match Task_findByIdAndUpdate (params_id req) update now (tasks db) with
            | (Some task, tasks') =>
                mkResult (mkResponse 200 true "Task updated successfully" (DataTask task))
                         (mkDb (users db) tasks')
                         (emit_if (req_io req) (io_emit "taskUpdated" (EvTask task)))
            | (None, tasks') =>
                mkResult (mkResponse 200 true "Task updated successfully" NoData)
                         (mkDb (users db) tasks') []
            end
        end
    end.

(** [deleteTask] *)
Definition deleteTask (db : Db) (req : Req unit) : Result :=
  match Task_findById (params_id req) (tasks db) with
  | None => reply taskNotFound db
  | Some _ =>
      mkResult (mkResponse 200 true "Task deleted successfully" NoData)
               (mkDb (users db)
                     (filter (fun t => negb (String.eqb (task_id t) (params_id req))) (tasks db)))
               (emit_if (req_io req) (io_emit "taskDeleted" (EvTaskId (params_id req))))
  end.

Record BulkBody := mkBulkBody {
  taskIds : list ObjectId;
  updates : Patch
}.

(** [bulkUpdateTasks], "Build query based on user role". *)
Definition bulkUpdateTasks_query (user : User) (ids : list ObjectId) : Filter :=
  let query := mkFilter (Some ids) None None None None None None in
  if Role_eqb (role user) vendor
  then set_filter_or [by_assigneeId (user_id user); by_createdBy (user_id user)] query
  else query.

(** [bulkUpdateTasks] *)
Definition bulkUpdateTasks (env : Env) (now : Date) (db : Db) (req : Req BulkBody) : Result :=
  if negb (length (validationErrors req) =? 0)%nat
  then reply (validationFailed (validationErrors req)) db
  else
    match verify_assignee db (updates (body req)) with
    | None => reply assigneeNotFound db
    | Some update =>
        match req_user req with
        | None => thrown no_user db
        | Some user =>
            let query := bulkUpdateTasks_query user (taskIds (body req)) in
            let (tasks', modifiedCount) := Task_updateMany env query update now (tasks db) in
            let updatedTasks :=
              Task_find env (mkFilter (Some (taskIds (body req))) None None None None None None)
                        tasks' in
            mkResult (mkResponse 200 true "tasks updated successfully" (DataModified modifiedCount))
                     (mkDb (users db) tasks')
                     (emit_if (req_io req) (io_emit "tasksBulkUpdated" (EvTasks updatedTasks)))
        end
    end.

(** [addComment]; the body is the comment text. *)
Definition addComment (now : Date) (db : Db) (req : Req string) : Result :=
  if negb (length (validationErrors req) =? 0)%nat
  then reply (validationFailed (validationErrors req)) db
  else
    match Task_findById (params_id req) (tasks db) with
    | None => reply taskNotFound db
    | Some found =>
        match req_user req with
        | None => thrown "TypeError: Cannot read properties of undefined (reading 'name')" db
        | Some user =>
            let comment := mkComment (body req) (name user) (user_id user) (role user) now in
            let task := hydrate found in
            let task := mkDoc (set_comments (comments (fields task) ++ [comment]) (fields task))
                              ("comments" :: modifiedPaths task) in
            let (task, tasks') := Task_save now task (tasks db) in
            mkResult (mkResponse 201 true "Comment added successfully"
                        (match last (map Some (comments (fields task))) None with
                         | Some c => DataComment c
                         | None => NoData
                         end))
                     (mkDb (users db) tasks')
                     (emit_if (req_io req)
                        (io_emit "commentAdded" (EvComment (task_id (fields task)) comment)))
        end
    end.

(* ===================================================================== *)
(** ** routes/taskRoutes.js                                               *)
(* ===================================================================== *)

(** Run a middleware, then the rest of the chain. *)
Definition via {B} (m : MwResult B) (db : Db) (k : Req B -> Result) : Result :=
  match m with
  | Next req => k req
  | Respond res => reply res db
  | NextError err => thrown err db
  end.

(** [router.use(protect)] comes first on every task route. *)
Definition GET_tasks (env : Env) (now : Date) (db : Db) (req : Req TasksQuery) : Result :=
  via (protect env now db req) db (getTasks env db).

Definition GET_task (env : Env) (now : Date) (db : Db) (req : Req unit) : Result :=
  via (protect env now db req) db (getTask db).

Definition POST_task (env : Env) (now : Date) (newId : ObjectId) (db : Db)
    (req : Req Patch) : Result :=
  via (protect env now db req) db (fun req =>
  via (authorize [admin; vendor] req) db (createTask now newId db)).

Definition PUT_task (env : Env) (now : Date) (db : Db) (req : Req Patch) : Result :=
  via (protect env now db req) db (fun req =>
  via (checkTaskAccess db req) db (updateTask now db)).

Definition DELETE_task (env : Env) (now : Date) (db : Db) (req : Req unit) : Result :=
  via (protect env now db req) db (fun req =>
  via (authorize [admin] req) db (deleteTask db)).

Definition PUT_tasks_bulk_update (env : Env) (now : Date) (db : Db)
    (req : Req BulkBody) : Result :=
  via (protect env now db req) db (fun req =>
  via (authorize [admin; vendor] req) db (bulkUpdateTasks env now db)).

Definition POST_task_comments (env : Env) (now : Date) (db : Db) (req : Req string) : Result :=
  via (protect env now db req) db (fun req =>
  via (checkTaskAccess db req) db (addComment now db)).

(* ===================================================================== *)
(** ** controllers/userController.js                                      *)
(* ===================================================================== *)

Record UsersQuery := mkUsersQuery {
  users_role : option Role;
  users_isActive : option string;
  users_search : option string;
  users_page : nat;
  users_limit : nat
}.

(** [select('-password')]: the projection drops the password. *)
Definition without_password (u : User) : User :=
  mkUser (user_id u) (name u) (email u) "" (role u) (isActive u) (lastLogin u).

(** The filter [getUsers] builds, applied to one user. *)
Definition getUsers_matches (env : Env) (q : UsersQuery) (u : User) : bool :=
  holds (users_role q) (Role_eqb (role u))
  && holds (users_isActive q) (fun s => Bool.eqb (isActive u) (String.eqb s "true"))
  && match users_search q with
     | Some s => if string_truthy s
                 then regex_i env s (name u) || regex_i env s (email u) else true
     | None => true
     end.

(** [getUsers]; as for tasks, the [sort] stage is a permutation. *)
Definition getUsers (env : Env) (db : Db) (req : Req UsersQuery) : Result :=
  if negb (length (validationErrors req) =? 0)%nat
  then reply (validationFailed (validationErrors req)) db
  else
    let found := filter (getUsers_matches env (body req)) (users db) in
    let skip := ((users_page (body req) - 1) * users_limit (body req))%nat in
    reply (mkResponse 200 true ""
             (DataUsers (map without_password
                             (firstn (users_limit (body req)) (skipn skip found)))
                        (length found))) db.

Definition userNotFound : Response := mkResponse 404 false "User not found" NoData.



Record UserUpdate := mkUserUpdate {
  update_name : option string;
  update_email : option string;
  update_role : option Role;
  update_isActive : option bool
}.

Definition toLowerCase_ascii (c : ascii) : ascii :=
  let n := nat_of_ascii c in
  if ((65 <=? n) && (n <=? 90))%nat then ascii_of_nat (n + 32) else c.

Fixpoint toLowerCase (s : string) : string :=
  match s with
  | EmptyString => EmptyString
  | String c rest => String (toLowerCase_ascii c) (toLowerCase rest)
  end.

Definition truthy_string (o : option string) : option string :=
  match o with
  | Some s => if string_truthy s then Some s else None
  | None => None
  end.

(** [updateUser] *)
Definition updateUser (db : Db) (req : Req UserUpdate) : Result :=
  match User_findById (Some (params_id req)) (users db) with
  | None => reply userNotFound db
  | Some user =>
      let b := body req in
      let taken :=
        match truthy_string (update_email b) with
        | Some e =>
            negb (String.eqb e (email user))
            && existsb (fun u => String.eqb (email u) (toLowerCase e)
                                 && negb (String.eqb (user_id u) (params_id req)))
                       (users db)
        | None => false
        end in
      if taken then reply (mkResponse 400 false "Email is already taken" NoData) db
      else
        let updatedUser :=
          mkUser (user_id user)
                 (or_keep (truthy_string (update_name b)) (name user))
                 (match truthy_string (update_email b) with
                  | Some e => toLowerCase e | None => email user end)
                 (password user)
                 (or_keep (update_role b) (role user))
                 (or_keep (update_isActive b) (isActive user))
                 (lastLogin user) in
        mkResult (mkResponse 200 true "User updated successfully"
                    (DataUser (without_password updatedUser)))
                 (mkDb (User_replace updatedUser (users db)) (tasks db)) []
  end.

(** [deleteUser] *)
Definition deleteUser (db : Db) (req : Req unit) : Result :=
  match User_findById (Some (params_id req)) (users db) with
  | None => reply userNotFound db
  | Some _ =>
      let assignedTasks :=
        length (filter (fun t => String.eqb (assigneeId t) (params_id req)
                                 && negb (isArchived t)) (tasks db)) in
      if (0 <? assignedTasks)%nat
      then reply (mkResponse 400 false "Cannot delete user. User has assigned tasks." NoData) db
      else mkResult (mkResponse 200 true "User deleted successfully" NoData)
                    (mkDb (filter (fun u => negb (String.eqb (user_id u) (params_id req)))
                                  (users db))
                          (tasks db)) []
  end.

(* ===================================================================== *)
(** ** routes/userRoutes.js                                               *)
(* ===================================================================== *)






(* ===================================================================== *)
(** ** Checking the percentage against exact arithmetic                   *)
(* ===================================================================== *)






(* ===================================================================== *)
(** ** A small deployment used in the examples                            *)
(* ===================================================================== *)

Definition env0 : Env :=
  mkEnv "s3cret" None (fun entered stored => String.eqb entered stored)
        (fun pattern subject => String.prefix (toLowerCase pattern) (toLowerCase subject)).

Definition A1 : User := mkUser "A1" "Ada" "ada@example.com" "pw-a" admin true None.
Definition V1 : User := mkUser "V1" "Vic" "vic@example.com" "pw-v" vendor true None.
Definition C1 : User := mkUser "C1" "Cyd" "cyd@example.com" "pw-c" customer true None.
Definition C2 : User := mkUser "C2" "Cal" "cal@example.com" "pw-d" customer true None.
Definition V9 : User := mkUser "V9" "Val" "val@example.com" "pw-x" vendor false None.

(** Fix bug: created by V1, assigned to C1. *)
Definition T1 : Task :=
  mkTask "T1" "Fix bug" "" medium todo "Cyd" "C1" "V1" 5000 [] [] 0 [] false None 100 100.
(** Created by the admin, assigned to C2. *)
Definition T2 : Task :=
  mkTask "T2" "Write docs" "" low todo "Cal" "C2" "A1" 6000 [] [] 0 [] false None 100 100.
(** An archived task of V1 and C1. *)
Definition T3 : Task :=
  mkTask "T3" "Old work" "" low done "Cyd" "C1" "V1" 50 [] [] 0 [] true (Some 90) 10 90.
(** Forty subtasks, twenty-three of them completed. *)
Definition T4 : Task :=
  mkTask "T4" "Checklist" "" medium inprogress "Cyd" "C1" "V1" 7000 []
         (repeat (mkSubtask "s" "step" true) 23 ++ repeat (mkSubtask "s" "step" false) 17)
         0 [] false None 100 100.

Definition db0 : Db := mkDb [A1; V1; C1; C2; V9] [T1; T2; T3; T4].

(** The token [login] signs for a user id. *)
Definition login_token (env : Env) (id : ObjectId) : Token :=
  jwt_sign (mkPayload None (Some id)) (JWT_SECRET env) None.

Definition bearer (t : Token) : option AuthHeader :=
  Some (mkAuthHeader "Bearer" (Some t)).

Definition no_patch : Patch :=
  mkPatch None None None None None None None None None None None None None None.

Definition patch_status_done : Patch :=
  mkPatch None None None (Some done) None None None None None None None None None None.

(** The body of a task creation: title, assignee and due date. *)
Definition patch_new_task : Patch :=
  mkPatch (Some "Ship it") None None None None (Some "C1") None (Some 9000)
          None None None None None None.

(** Two live connections: the administrator A1 on socket 3 and the
    customer C2 on socket 7, each in its personal and its role room. *)
Definition conns0 : list Socket := on_connection 7 C2 (on_connection 3 A1 []).

Definition socket_C2 : Socket := mkSocket 7 C2 ["user_C2"; "role_customer"].

Definition patch_status_todo : Patch :=
  mkPatch None None None (Some todo) None None None None None None None None None None.


Definition patch_priority_high : Patch :=
  mkPatch None None (Some high) None None None None None None None None None None None.

(* ===================================================================== *)
(** ** Notions used in the statements                                     *)
(* ===================================================================== *)

(** The ownership predicate of the vendor scope: assignee or creator. *)
Definition owned (user : User) (t : Task) : bool :=
  String.eqb (assigneeId t) (user_id user) || String.eqb (createdBy t) (user_id user).

(** A listing request without filter parameters. *)
Definition unfiltered (q : TasksQuery) : Prop :=
  query_status q = None /\ query_priority q = None /\ query_assigneeId q = None
  /\ query_tags q = None /\ query_search q = None.

(** How many stored documents differ between two states of a collection
    (same documents, same order). *)
Definition changed_count (before after : list Task) : nat :=
  length (filter (fun p => if Task_eq_dec (fst p) (snd p) then false else true)
                 (combine before after)).


(** The outcome of socket authentication is a refusal. *)
Definition refused (r : User + string) : Prop :=
  match r with inl _ => False | inr _ => True end.

(* ===================================================================== *)
(** ** The remaining virtuals of models/Task.js                           *)
(* ===================================================================== *)

(** [taskSchema.virtual("isOverdue")]; [now] is [new Date()]. *)
Definition isOverdue (now : Date) (this : Task) : bool :=
  negb (Status_eqb (status this) done) && (dueDate this <? now).



(* ===================================================================== *)
(** ** Messages on the socket layer                                       *)
(* ===================================================================== *)

(** Whom an emit addresses: [io.emit], [io.to(room).emit],
    [socket.to(room).emit], [socket.broadcast.emit], [socket.emit]. *)
Inductive Target :=
| to_everyone
| to_room_members (room : string)
| to_room_but (sender : nat) (room : string)
| to_others (sender : nat)
| to_self (sender : nat).

(** What the handlers below put into their events. *)
Inductive Content :=
| relayed (taskId : string) (content : string)
| comment_relayed (taskId : string) (c : Comment)
| typing_state (taskId : string) (userId : ObjectId) (userName : string) (isTyping : bool)
| presence (userId : ObjectId) (userName : string) (state : string)
| notification (type message from : string) (timestamp : Date)
| bulk_performed (operation : string) (ids : list string) (performedBy : string)
                 (timestamp : Date)
| welcome (userId : ObjectId) (userName : string) (r : Role)
| subtask_updated (taskId : ObjectId) (s : Subtask)
| tasks_deleted (ids : list ObjectId).

Record Message := mkMessage {
  target : Target;
  event : string;
  content : Content
}.

(** The connections a message is delivered to. *)
Definition delivered (conns : list Socket) (m : Message) : list Socket :=
  match target m with
  | to_everyone => conns
  | to_room_members room => filter (in_room room) conns
  | to_room_but sender room =>
      filter (fun s => in_room room s && negb (Nat.eqb (socket_id s) sender)) conns
  | to_others sender => filter (fun s => negb (Nat.eqb (socket_id s) sender)) conns
  | to_self sender => filter (fun s => Nat.eqb (socket_id s) sender) conns
  end.

(** Some message of the list reaches the connection. *)
Definition gets (conns : list Socket) (ms : list Message) (s : Socket) : Prop :=
  exists m, In m ms /\ In s (delivered conns m).

(* ===================================================================== *)
(** ** socket/socketHandlers.js, the remaining handlers                   *)
(* ===================================================================== *)

(** [socket.on('newComment')]: the client's comment, with the author
    fields and the date overwritten from the socket's user. *)
Definition on_newComment (now : Date) (sid : nat) (user : User)
    (taskId : string) (comment : Comment) : list Message :=
  [ mkMessage (to_room_but sid ("task_" ++ taskId)%string) "commentAdded"
      (comment_relayed taskId
         (mkComment (comment_text comment) (name user) (user_id user) (role user) now)) ].

(** [socket.on('typing')] *)
Definition on_typing (sid : nat) (user : User) (taskId : string) (isTyping : bool)
    : list Message :=
  [ mkMessage (to_room_but sid ("task_" ++ taskId)%string) "userTyping"
      (typing_state taskId (user_id user) (name user) isTyping) ].

(** [socket.on('statusChange')] *)
Definition on_statusChange (sid : nat) (taskId data : string) : list Message :=
  [ mkMessage (to_room_but sid ("task_" ++ taskId)%string) "taskStatusChanged"
      (relayed taskId data);
    mkMessage (to_room_but sid "role_admin") "taskStatusChanged" (relayed taskId data);
    mkMessage (to_room_but sid "role_vendor") "taskStatusChanged" (relayed taskId data) ].

(** [socket.on('updatePresence')] *)
Definition on_updatePresence (sid : nat) (user : User) (state : string) : list Message :=
  [ mkMessage (to_others sid) "userPresenceUpdate"
      (presence (user_id user) (name user) state) ].

(** [socket.on('sendNotification')]: nothing is sent without a target. *)
Definition on_sendNotification (now : Date) (sid : nat) (user : User)
    (targetUserId : option string) (type message : string) : list Message :=
  match targetUserId with
  | Some t =>
      if string_truthy t
      then [ mkMessage (to_room_but sid ("user_" ++ t)%string) "notification"
               (notification type message (name user) now) ]
      else []
  | None => []
  end.

(** [socket.on('bulkOperation')] *)
Definition on_bulkOperation (now : Date) (sid : nat) (user : User)
    (operation : string) (ids : list string) : list Message :=
  mkMessage (to_room_but sid "role_admin") "bulkOperationPerformed"
    (bulk_performed operation ids (name user) now)
  :: (if negb (Role_eqb (role user) admin)
      then [ mkMessage (to_room_but sid "role_vendor") "bulkOperationPerformed"
               (bulk_performed operation ids (name user) now) ]
      else []).

(** [socket.on('disconnect')] *)
Definition on_disconnect (sid : nat) (user : User) : list Message :=
  [ mkMessage (to_others sid) "userPresenceUpdate"
      (presence (user_id user) (name user) "offline") ].

(** The welcome at the end of [io.on('connection')]. *)
Definition on_connected (sid : nat) (user : User) : list Message :=
  [ mkMessage (to_self sid) "connected" (welcome (user_id user) (name user) (role user)) ].

(** [emitToUser], [emitToRole], [emitToTask] *)
Definition emitToUser (userId : string) (ev : string) (c : Content) : Message :=
  mkMessage (to_room_members ("user_" ++ userId)%string) ev c.

Definition emitToRole (r : string) (ev : string) (c : Content) : Message :=
  mkMessage (to_room_members ("role_" ++ r)%string) ev c.

Definition emitToTask (taskId : string) (ev : string) (c : Content) : Message :=
  mkMessage (to_room_members ("task_" ++ taskId)%string) ev c.

(** What a client can make of the registry: connect (after
    authentication), join a task room, leave a task room. *)
Inductive Action :=
| connect (sid : nat) (user : User)
| joinTask (sid : nat) (taskId : string)
| leaveTask (sid : nat) (taskId : string).

Definition act (a : Action) (conns : list Socket) : list Socket :=
  match a with
  | connect sid user => on_connection sid user conns
  | joinTask sid taskId => on_joinTask sid taskId conns
  | leaveTask sid taskId => on_leaveTask sid taskId conns
  end.

(** The registry after a history of actions, oldest first. *)
Definition registry (history : list Action) : list Socket :=
  fold_left (fun conns a => act a conns) history [].

(** The shape every connection keeps: the personal room, the role room,
    then task rooms only. *)
Definition enrolled (s : Socket) : Prop :=
  exists joined,
    rooms s = ("user_" ++ user_id (socket_user s))%string
              :: ("role_" ++ Role_name (role (socket_user s)))%string
              :: joined
    /\ Forall (fun r => String.prefix "task_" r = true) joined.

(* ===================================================================== *)
(** ** controllers/taskController.js, the remaining handlers              *)
(* ===================================================================== *)

(** The answer of the handlers below, with the data typed per handler:
    status, success flag, message, data, the database afterwards and
    the messages handed to Socket.IO. *)
Record Outcome (A : Type) := mkOutcome {
  out_status : nat;
  out_success : bool;
  out_message : string;
  out_data : option A;
  out_db : Db;
  out_messages : list Message
}.
Arguments mkOutcome {A}.
Arguments out_status {A}.
Arguments out_success {A}.
Arguments out_message {A}.
Arguments out_data {A}.
Arguments out_db {A}.
Arguments out_messages {A}.

Definition failed {A} (code : nat) (msg : string) (db : Db) : Outcome A :=
  mkOutcome code false msg None db [].

(** A middleware in front of such a handler. *)
Definition via_out {B A} (m : MwResult B) (db : Db) (k : Req B -> Outcome A) : Outcome A :=
  match m with
  | Next req => k req
  | Respond res => failed (statusCode res) (message res) db
  | NextError err => failed 500 err db
  end.

Definition message_if (io : bool) (m : Message) : list Message := if io then [m] else [].

Record SubtaskPatch := mkSubtaskPatch {
  subtask_text : option string;
  subtask_completed : option bool
}.

(** The request of PUT /:id/subtasks/:subtaskId: [req.params.subtaskId]
    and the body. *)
Record SubtaskBody := mkSubtaskBody {
  params_subtaskId : ObjectId;
  subtask_patch : SubtaskPatch
}.

(** [task.subtasks.id(subtaskId)] *)
Definition subtasks_id (id : ObjectId) (l : list Subtask) : option Subtask :=
  find (fun s => String.eqb (subtask_id s) id) l.

(** [Object.assign(subtask, req.body)] on the subdocument found. *)
Definition assign_subtask (p : SubtaskPatch) (s : Subtask) : Subtask :=
  mkSubtask (subtask_id s) (or_keep (subtask_text p) (text s))
            (or_keep (subtask_completed p) (completed s)).

(** The array with the first subdocument of that id assigned to. *)
Fixpoint assign_in (id : ObjectId) (p : SubtaskPatch) (l : list Subtask) : list Subtask :=
  match l with
  | [] => []
  | s :: rest =>
      if String.eqb (subtask_id s) id then assign_subtask p s :: rest
      else s :: assign_in id p rest
  end.

Definition set_subtasks (l : list Subtask) (t : Task) : Task :=
  mkTask (task_id t) (title t) (description t) (priority t) (status t)
         (assignee t) (assigneeId t) (createdBy t) (dueDate t) (tags t)
         l (timeSpent t) (comments t) (isArchived t)
         (completedAt t) (createdAt t) (updatedAt t).

(** [updateSubtask] *)
Definition updateSubtask (now : Date) (db : Db) (req : Req SubtaskBody) : Outcome Subtask :=
  match Task_findById (params_id req) (tasks db) with
  | None => failed 404 "Task not found" db
  | Some found =>
      match subtasks_id (params_subtaskId (body req)) (subtasks found) with
      | None => failed 404 "Subtask not found" db
      | Some subtask =>
          let subtask := assign_subtask (subtask_patch (body req)) subtask in
          let task := mkDoc (set_subtasks
                               (assign_in (params_subtaskId (body req))
                                          (subtask_patch (body req)) (subtasks found))
                               found)
                            ["subtasks"] in
          let (task, tasks') := Task_save now task (tasks db) in
          mkOutcome 200 true "Subtask updated successfully" (Some subtask)
                    (mkDb (users db) tasks')
                    (message_if (req_io req)
                       (mkMessage to_everyone "subtaskUpdated"
                          (subtask_updated (task_id (fields task)) subtask)))
      end
  end.

Record TaskStats := mkTaskStats {
  stats_total : nat;
  stats_todo : nat;
  stats_inprogress : nat;
  stats_done : nat;
  stats_high : nat;
  stats_medium : nat;
  stats_low : nat;
  stats_overdue : nat
}.

(** [getTaskStats], "Build query based on user role". *)
Definition getTaskStats_matchQuery (user : User) : Filter :=
  let matchQuery := mkFilter None (Some false) None None None None None in
  if Role_eqb (role user) customer then set_filter_assigneeId (user_id user) matchQuery
  else if Role_eqb (role user) vendor
  then set_filter_or [by_assigneeId (user_id user); by_createdBy (user_id user)] matchQuery
  else matchQuery.

Definition count_if (p : Task -> bool) (ts : list Task) : nat := length (filter p ts).

(** The [$group] stage: one sum per key over the matched documents. *)
Definition group_stats (now : Date) (matched : list Task) : TaskStats :=
  mkTaskStats
    (length matched)
    (count_if (fun t => Status_eqb (status t) todo) matched)
    (count_if (fun t => Status_eqb (status t) inprogress) matched)
    (count_if (fun t => Status_eqb (status t) done) matched)
    (count_if (fun t => Priority_eqb (priority t) high) matched)
    (count_if (fun t => Priority_eqb (priority t) medium) matched)
    (count_if (fun t => Priority_eqb (priority t) low) matched)
    (count_if (fun t => negb (Status_eqb (status t) done) && (dueDate t <? now)) matched).

(** [getTaskStats]: the aggregate returns no group at all when nothing
    matches, and the handler then answers with zeros. *)
Definition getTaskStats (env : Env) (now : Date) (db : Db) (req : Req unit)
    : Outcome TaskStats :=
  match req_user req with
  | None => failed 500 no_user db
  | Some user =>
      let matched := Task_find env (getTaskStats_matchQuery user) (tasks db) in
      let stats := match matched with
                   | [] => []
                   | _ :: _ => [group_stats now matched]
                   end in
      mkOutcome 200 true ""
                (Some (match stats with
                       | s :: _ => s
                       | [] => mkTaskStats 0 0 0 0 0 0 0 0
                       end))
                db []
  end.

(** The query of [getOverdueTasks] applied to one task: not done, due
    before now, not archived, then the role conditions. *)
Definition getOverdueTasks_matches (now : Date) (user : User) (t : Task) : bool :=
  negb (Status_eqb (status t) done)
  && (dueDate t <? now)
  && Bool.eqb (isArchived t) false
  && (if Role_eqb (role user) customer then String.eqb (assigneeId t) (user_id user)
      else if Role_eqb (role user) vendor
      then String.eqb (assigneeId t) (user_id user) || String.eqb (createdBy t) (user_id user)
      else true).

(** [.sort({ dueDate: 1 })]: ascending by due date. *)
Fixpoint insert_by_dueDate (t : Task) (sorted : list Task) : list Task :=
  match sorted with
  | [] => [t]
  | x :: rest =>
      if dueDate t <=? dueDate x then t :: x :: rest
      else x :: insert_by_dueDate t rest
  end.

Definition sort_by_dueDate (ts : list Task) : list Task :=
  fold_right insert_by_dueDate [] ts.

(** [getOverdueTasks] *)
Definition getOverdueTasks (now : Date) (db : Db) (req : Req unit) : Outcome (list Task) :=
  match req_user req with
  | None => failed 500 no_user db
  | Some user =>
      let overdueTasks :=
        sort_by_dueDate (filter (getOverdueTasks_matches now user) (tasks db)) in
      mkOutcome 200 true "" (Some overdueTasks) db []
  end.

(** [bulkDeleteTasks]; the body is [taskIds], absent or an array.  The
    data is [deletedCount]. *)
Definition bulkDeleteTasks (db : Db) (req : Req (option (list ObjectId))) : Outcome nat :=
  match body req with
  | None => failed 400 "Task IDs array is required" db
  | Some [] => failed 400 "Task IDs array is required" db
  | Some ids =>
      let named := fun t => existsb (String.eqb (task_id t)) ids in
      let deletedCount := length (filter named (tasks db)) in
      mkOutcome 200 true "tasks deleted successfully" (Some deletedCount)
                (mkDb (users db) (filter (fun t => negb (named t)) (tasks db)))
                (message_if (req_io req)
                   (mkMessage to_everyone "tasksBulkDeleted" (tasks_deleted ids)))
  end.

(* ===================================================================== *)
(** ** controllers/authController.js, the remaining handlers              *)
(* ===================================================================== *)

Definition null_profile : string :=
  "TypeError: Cannot read properties of null (reading 'profile')".

(** [getMe]; the answer is [user.profile], which has no password. *)
Definition getMe (db : Db) (req : Req unit) : Outcome User :=
  match req_user req with
  | None => failed 500 "TypeError: Cannot read properties of undefined (reading 'id')" db
  | Some me =>
      match User_findById (Some (user_id me)) (users db) with
      | None => failed 500 null_profile db
      | Some user => mkOutcome 200 true "" (Some (without_password user)) db []
      end
  end.

Record ProfileBody := mkProfileBody {
  profile_name : option string;
  profile_email : option string
}.

(** [updateProfile] *)
Definition updateProfile (db : Db) (req : Req ProfileBody) : Outcome User :=
  if negb (length (validationErrors req) =? 0)%nat
  then failed 400 "Validation failed" db
  else
    match req_user req with
    | None => failed 500 "TypeError: Cannot read properties of undefined (reading 'id')" db
    | Some me =>
        let b := body req in
        let taken :=
          match truthy_string (profile_email b) with
          | Some e => existsb (fun u => String.eqb (email u) (toLowerCase e)
                                        && negb (String.eqb (user_id u) (user_id me)))
                              (users db)
          | None => false
          end in
        if taken then failed 400 "Email is already taken" db
        else
          match User_findById (Some (user_id me)) (users db) with
          | None => failed 500 null_profile db
          | Some stored =>
              let user :=
                mkUser (user_id stored)
                       (or_keep (truthy_string (profile_name b)) (name stored))
                       (match truthy_string (profile_email b) with
                        | Some e => toLowerCase e | None => email stored end)
                       (password stored) (role stored) (isActive stored)
                       (lastLogin stored) in
              mkOutcome 200 true "Profile updated successfully"
                        (Some (without_password user))
                        (mkDb (User_replace user (users db)) (tasks db)) []
          end
    end.

Record PasswordBody := mkPasswordBody {
  currentPassword : string;
  newPassword : string
}.

(** [changePassword]; [hashed] is what bcrypt makes of the new password
    in the user pre-save hook.  The hook only hashes when the assignment
    changed the stored value. *)
Definition changePassword (env : Env) (hashed : string) (db : Db)
    (req : Req PasswordBody) : Outcome unit :=
  if negb (length (validationErrors req) =? 0)%nat
  then failed 400 "Validation failed" db
  else
    match req_user req with
    | None => failed 500 "TypeError: Cannot read properties of undefined (reading 'id')" db
    | Some me =>
        match User_findById (Some (user_id me)) (users db) with
        | None => failed 500 "TypeError: Cannot read properties of null (reading 'matchPassword')" db
        | Some user =>
            if negb (bcrypt_compare env (currentPassword (body req)) (password user))
            then failed 400 "Current password is incorrect" db
            else
              let stored :=
                if String.eqb (newPassword (body req)) (password user)
                then password user else hashed in
              let user' := mkUser (user_id user) (name user) (email user) stored
                                  (role user) (isActive user) (lastLogin user) in
              mkOutcome 200 true "Password changed successfully" None
                        (mkDb (User_replace user' (users db)) (tasks db)) []
        end
    end.

(** [logout] *)
Definition logout (db : Db) (req : Req unit) : Outcome unit :=
  mkOutcome 200 true "Logged out successfully" None db [].

(* ===================================================================== *)
(** ** The remaining routes                                               *)
(* ===================================================================== *)

Definition GET_tasks_stats (env : Env) (now : Date) (db : Db) (req : Req unit)
    : Outcome TaskStats :=
  via_out (protect env now db req) db (getTaskStats env now db).

Definition GET_tasks_overdue (env : Env) (now : Date) (db : Db) (req : Req unit)
    : Outcome (list Task) :=
  via_out (protect env now db req) db (getOverdueTasks now db).

Definition DELETE_tasks_bulk_delete (env : Env) (now : Date) (db : Db)
    (req : Req (option (list ObjectId))) : Outcome nat :=
  via_out (protect env now db req) db (fun req =>
  via_out (authorize [admin] req) db (bulkDeleteTasks db)).

Definition PUT_task_subtask (env : Env) (now : Date) (db : Db) (req : Req SubtaskBody)
    : Outcome Subtask :=
  via_out (protect env now db req) db (fun req =>
  via_out (checkTaskAccess db req) db (updateSubtask now db)).

(** routes/authRoutes.js: register and login are public, the rest sits
    behind [router.use(protect)]. *)
Definition GET_auth_me (env : Env) (now : Date) (db : Db) (req : Req unit) : Outcome User :=
  via_out (protect env now db req) db (getMe db).

Definition PUT_auth_profile (env : Env) (now : Date) (db : Db) (req : Req ProfileBody)
    : Outcome User :=
  via_out (protect env now db req) db (updateProfile db).

Definition PUT_auth_change_password (env : Env) (now : Date) (hashed : string) (db : Db)
    (req : Req PasswordBody) : Outcome unit :=
  via_out (protect env now db req) db (changePassword env hashed db).

Definition POST_auth_logout (env : Env) (now : Date) (db : Db) (req : Req unit)
    : Outcome unit :=
  via_out (protect env now db req) db (logout db).

(* ===================================================================== *)
(** ** Notions used in the further statements                             *)
(* ===================================================================== *)


(** The same, for the tasks that are not archived. *)
Definition open_assignees_resolve (db : Db) : Prop :=
  forall t, In t (tasks db) -> isArchived t = false ->
            User_findById (Some (assigneeId t)) (users db) <> None.

(** The request with the given Authorization header. *)
Definition with_authorization {B} (h : option AuthHeader) (req : Req B) : Req B :=
  mkReq h (params_id req) (body req) (validationErrors req) (req_user req) (req_io req).

(** Ascending due dates. *)
Definition due_ascending (ts : list Task) : Prop :=
  StronglySorted (fun a b => dueDate a <= dueDate b) ts.


(* ===================================================================== *)
(** ** Task state machine                                                 *)
(* ===================================================================== *)

Lemma Status_eqb_refl (s : Status) : Status_eqb s s = true.
Proof. destruct s; reflexivity. Qed.

Lemma Status_eqb_eq (a b : Status) : Status_eqb a b = true <-> a = b.
Proof. destruct a, b; simpl; split; intro H; try reflexivity; discriminate. Qed.

Lemma Role_eqb_eq (a b : Role) : Role_eqb a b = true <-> a = b.
Proof. destruct a, b; simpl; split; intro H; try reflexivity; discriminate. Qed.

Lemma isModified_assigned (s : Status) (d : Doc) :
  Status_eqb s (status (fields d)) = false ->
  isModified (assign_status s d) "status" = true.
Proof.
  intro H. unfold assign_status. rewrite H. reflexivity.
Qed.

(** The hook writes [updatedAt] and [completedAt] and nothing else. *)
Lemma pre_save_frame (now : Date) (d : Doc) :
  let t := fields d in
  let t' := fields (pre_save now d) in
  task_id t' = task_id t /\ title t' = title t /\ description t' = description t
  /\ priority t' = priority t /\ status t' = status t /\ assignee t' = assignee t
  /\ assigneeId t' = assigneeId t /\ createdBy t' = createdBy t
  /\ dueDate t' = dueDate t /\ tags t' = tags t /\ subtasks t' = subtasks t
  /\ timeSpent t' = timeSpent t /\ comments t' = comments t
  /\ isArchived t' = isArchived t /\ createdAt t' = createdAt t.
Proof.
  unfold pre_save. generalize (isModified d "status"). intro b.
  destruct d as [t m]. destruct t as [i ti de pr st an ai cb du tg su ts co ar ca cr up].
  cbv zeta. simpl.
  destruct b, st, ca; simpl; repeat split; reflexivity.
Qed.

(** What the hook leaves in [completedAt], by cases. *)
Lemma pre_save_completedAt (now : Date) (d : Doc) :
  completedAt (fields (pre_save now d)) =
    if isModified d "status" then
      if Status_eqb (status (fields d)) done
      then (if truthy (completedAt (fields d)) then completedAt (fields d) else Some now)
      else None
    else completedAt (fields d).
Proof.
  unfold pre_save. generalize (isModified d "status"). intro b.
  destruct d as [t m]. destruct t as [i ti de pr st an ai cb du tg su ts co ar ca cr up].
  simpl. destruct b, st, ca; reflexivity.
Qed.

Lemma pre_save_status (now : Date) (d : Doc) :
  status (fields (pre_save now d)) = status (fields d).
Proof. apply (pre_save_frame now d). Qed.

Lemma pre_save_modifiedPaths (now : Date) (d : Doc) :
  modifiedPaths (pre_save now d) = modifiedPaths d.
Proof. reflexivity. Qed.

Lemma assign_status_status (s : Status) (d : Doc) :
  status (fields (assign_status s d)) = s.
Proof.
  unfold assign_status. destruct (Status_eqb s (status (fields d))) eqn:E.
  - apply Status_eqb_eq in E. symmetry. exact E.
  - reflexivity.
Qed.

(** C7: the status transition applied at save time is idempotent on
    [completedAt] -- applying the same target status a second time, or
    running the hook a second time on the same document, leaves
    [completedAt] as the first application put it -- and the hook changes
    no field other than [completedAt] and [updatedAt]: id, title,
    description, priority, status, assignee, assigneeId, createdBy,
    dueDate, tags, subtasks, timeSpent, comments, isArchived and
    createdAt pass through untouched. *)
Theorem C7_status_transition_idempotent_and_framed :
  forall (s : Status) (now1 now2 : Date) (d : Doc),
    completedAt (fields (applyStatus s now2 (applyStatus s now1 d)))
      = completedAt (fields (applyStatus s now1 d))
    /\ completedAt (fields (pre_save now2 (pre_save now1 d)))
       = completedAt (fields (pre_save now1 d))
    /\ (let t := fields d in
        let t' := fields (pre_save now1 d) in
        task_id t' = task_id t /\ title t' = title t /\ description t' = description t
        /\ priority t' = priority t /\ status t' = status t /\ assignee t' = assignee t
        /\ assigneeId t' = assigneeId t /\ createdBy t' = createdBy t
        /\ dueDate t' = dueDate t /\ tags t' = tags t /\ subtasks t' = subtasks t
        /\ timeSpent t' = timeSpent t /\ comments t' = comments t
        /\ isArchived t' = isArchived t /\ createdAt t' = createdAt t).
Proof.
  intros s now1 now2 d. split; [| split].
  - (* the second assignment finds the status already in place *)
    set (d1 := applyStatus s now1 d).
    assert (Hs : status (fields d1) = s).
    { change (status (fields (pre_save now1 (assign_status s d))) = s).
      rewrite pre_save_status. apply assign_status_status. }
    assert (Hm : modifiedPaths d1 = []) by reflexivity.
    change (completedAt (fields (pre_save now2 (assign_status s d1)))
            = completedAt (fields d1)).
    rewrite pre_save_completedAt.
    unfold assign_status. rewrite Hs, Status_eqb_refl.
    unfold isModified. rewrite Hm. reflexivity.
  - rewrite (pre_save_completedAt now2 (pre_save now1 d)).
    unfold isModified. rewrite pre_save_modifiedPaths.
    fold (isModified d "status").
    rewrite pre_save_status, pre_save_completedAt.
    destruct (isModified d "status"); [| reflexivity].
    destruct (Status_eqb (status (fields d)) done); [| reflexivity].
    destruct (completedAt (fields d)); reflexivity.
  - apply pre_save_frame.
Qed.

(** C1: at a concrete update the write does not go through the state
    machine.  The administrator A1 sends PUT /api/tasks/T1 with body
    [{status: "done"}]: the request succeeds, the stored status is done
    and [completedAt] is still null; PUT /api/tasks/T3 with
    [{status: "todo"}] on the completed task T3 leaves its [completedAt]
    set.  The save path on the same tasks does what the claim asks. *)
Theorem C1_update_skips_the_state_machine :
  let to_done :=
    PUT_task env0 2000 db0
      (mkReq (bearer (login_token env0 "A1")) "T1" patch_status_done [] None false) in
  let to_todo :=
    PUT_task env0 2000 db0
      (mkReq (bearer (login_token env0 "A1")) "T3" patch_status_todo [] None false) in
  statusCode (response to_done) = 200%nat
  /\ option_map status (Task_findById "T1" (tasks (db_after to_done))) = Some done
  /\ option_map completedAt (Task_findById "T1" (tasks (db_after to_done))) = Some None
  /\ statusCode (response to_todo) = 200%nat
  /\ option_map status (Task_findById "T3" (tasks (db_after to_todo))) = Some todo
  /\ option_map completedAt (Task_findById "T3" (tasks (db_after to_todo))) = Some (Some 90)
  /\ completedAt (fields (applyStatus done 2000 (hydrate T1))) = Some 2000
  /\ completedAt (fields (applyStatus todo 2000 (hydrate T3))) = None.
Proof. vm_compute. repeat split; reflexivity. Qed.

(** An update operation never touches [completedAt] unless the body names
    it: whatever status the patch carries. *)
Lemma applyUpdate_completedAt (p : Patch) (now : Date) (t : Task) :
  patch_completedAt p = None ->
  completedAt (applyUpdate p now t) = completedAt t.
Proof. intro H. unfold applyUpdate. simpl. rewrite H. reflexivity. Qed.

(* ===================================================================== *)
(** ** Subtask progress                                                   *)
(* ===================================================================== *)









(* ===================================================================== *)
(** ** Lookups in the collections                                         *)
(* ===================================================================== *)

Lemma Task_findById_Some (id : ObjectId) (ts : list Task) (t : Task) :
  Task_findById id ts = Some t -> In t ts /\ task_id t = id.
Proof.
  unfold Task_findById. intro H. apply find_some in H. destruct H as [Hin He].
  split; [exact Hin | now apply String.eqb_eq].
Qed.

Lemma User_findById_Some (id : ObjectId) (us : list User) (u : User) :
  User_findById (Some id) us = Some u -> In u us /\ user_id u = id.
Proof.
  simpl. intro H. apply find_some in H. destruct H as [Hin He].
  split; [exact Hin | now apply String.eqb_eq].
Qed.

(** After a replacement the lookup returns the new document. *)
Lemma Task_findById_replace (id : ObjectId) (ts : list Task) (t t' : Task) :
  Task_findById id ts = Some t -> task_id t' = id ->
  Task_findById id (Task_replace t' ts) = Some t'.
Proof.
  unfold Task_findById, Task_replace. intros H Hid. subst id.
  induction ts as [| x ts IH]; simpl in *; [discriminate |].
  destruct (String.eqb (task_id x) (task_id t')) eqn:E.
  - simpl. rewrite String.eqb_refl. reflexivity.
  - simpl. rewrite E. apply IH. exact H.
Qed.

Lemma applyUpdate_task_id (p : Patch) (now : Date) (t : Task) :
  task_id (applyUpdate p now t) = task_id t.
Proof. reflexivity. Qed.

(* ===================================================================== *)
(** ** Visibility policy                                                  *)
(* ===================================================================== *)








Lemma getTasks_query_unfiltered (user : User) (q : TasksQuery) :
  unfiltered q -> getTasks_query user q = getTasks_scope user.
Proof.
  intros (H1 & H2 & H3 & H4 & H5). unfold getTasks_query.
  rewrite H1, H2, H3, H4, H5. reflexivity.
Qed.

(** The scope of the listing, role by role. *)
Lemma matches_getTasks_scope (env : Env) (user : User) (t : Task) :
  matches env (getTasks_scope user) t =
    negb (isArchived t)
    && match role user with
       | admin => true
       | vendor => owned user t
       | customer => String.eqb (assigneeId t) (user_id user)
       end.
Proof.
  unfold getTasks_scope, matches, owned.
  destruct (role user); simpl;
    destruct (isArchived t); simpl; rewrite ?andb_true_r, ?orb_false_r; reflexivity.
Qed.

(** The single-task check, role by role, when both references of the
    task resolve. *)
Lemma getTask_status (db : Db) (req : Req unit) (user : User) (task : Task) :
  req_user req = Some user ->
  Task_findById (params_id req) (tasks db) = Some task ->
  User_findById (Some (assigneeId task)) (users db) <> None ->
  User_findById (Some (createdBy task)) (users db) <> None ->
  statusCode (response (getTask db req)) =
    if match role user with
       | admin => true
       | vendor => owned user task
       | customer => String.eqb (assigneeId task) (user_id user)
       end
    then 200%nat else 403%nat.
Proof.
  intros Hu Ht Ha Hc. unfold getTask. rewrite Ht, Hu.
  destruct (User_findById (Some (assigneeId task)) (users db)) as [a |] eqn:Ea;
    [| contradiction].
  destruct (User_findById (Some (createdBy task)) (users db)) as [c |] eqn:Ec;
    [| contradiction].
  apply User_findById_Some in Ea. destruct Ea as [_ Ea].
  apply User_findById_Some in Ec. destruct Ec as [_ Ec].
  rewrite Ea, Ec. unfold owned.
  destruct (role user); simpl.
  - reflexivity.
  - destruct (String.eqb (assigneeId task) (user_id user)); simpl; [reflexivity |].
    destruct (String.eqb (createdBy task) (user_id user)); reflexivity.
  - destruct (String.eqb (assigneeId task) (user_id user)); reflexivity.
Qed.

(** C3 (amended): for every actor and every task that is not archived
    and whose assignee and creator references resolve, the listing
    without filter parameters contains the task if and only if the
    single-task endpoint lets that actor read it, for each of the roles
    admin, vendor and customer.  (Archived tasks never appear in the
    listing.) *)
Theorem C3_listing_agrees_with_single_read_unless_archived :
  forall (env : Env) (db : Db) (req : Req unit) (q : TasksQuery) (user : User) (task : Task),
    req_user req = Some user ->
    Task_findById (params_id req) (tasks db) = Some task ->
    User_findById (Some (assigneeId task)) (users db) <> None ->
    User_findById (Some (createdBy task)) (users db) <> None ->
    unfiltered q ->
    isArchived task = false ->
    (matches env (getTasks_scope user) task = true
       <-> statusCode (response (getTask db req)) = 200%nat)
    /\ (In task (Task_find env (getTasks_query user q) (tasks db))
       <-> statusCode (response (getTask db req)) = 200%nat)
    /\ (forall t, isArchived t = true -> matches env (getTasks_scope user) t = false).
Proof.
  intros env db req q user task Hu Ht Ha Hc Hq Harch.
  assert (Hscope : matches env (getTasks_scope user) task = true
                   <-> statusCode (response (getTask db req)) = 200%nat).
  { rewrite matches_getTasks_scope, (getTask_status db req user task) by assumption.
    rewrite Harch. simpl.
    destruct (match role user with
              | admin => true
              | vendor => owned user task
              | customer => String.eqb (assigneeId task) (user_id user)
              end); split; intro H; try reflexivity; discriminate H. }
  split; [exact Hscope | split].
  - rewrite (getTasks_query_unfiltered user q Hq). unfold Task_find.
    rewrite filter_In, <- Hscope.
    destruct (Task_findById_Some _ _ _ Ht) as [Hin _].
    split; [intros [_ H]; exact H | intro H; split; assumption].
  - intros t Ht'. rewrite matches_getTasks_scope, Ht'. reflexivity.
Qed.

(** C3, checked on the customer C2 and the task T2 assigned to C2. *)
Lemma C3_listing_agrees_with_single_read_unless_archived_witness :
  let req := mkReq None "T2" tt [] (Some C2) false in
  matches env0 (getTasks_scope C2) T2 = true
    <-> statusCode (response (getTask db0 req)) = 200%nat.
Proof.
  intro req.
  assert (Ha : User_findById (Some (assigneeId T2)) (users db0) <> None)
    by (vm_compute; discriminate).
  assert (Hc : User_findById (Some (createdBy T2)) (users db0) <> None)
    by (vm_compute; discriminate).
  assert (Hq : unfiltered (mkTasksQuery None None None None None 1 50))
    by (repeat split).
  exact (proj1 (C3_listing_agrees_with_single_read_unless_archived
                  env0 db0 req (mkTasksQuery None None None None None 1 50) C2 T2
                  eq_refl eq_refl Ha Hc Hq eq_refl)).
Defined.

(** C3 as stated fails on the archived task T3: the administrator reads
    it through GET /api/tasks/T3 (200), while the listing scope rejects
    it and GET /api/tasks does not return it. *)
Lemma C3_counterexample :
  let token := bearer (login_token env0 "A1") in
  let single := GET_task env0 2000 db0 (mkReq token "T3" tt [] None false) in
  let listing := GET_tasks env0 2000 db0
                   (mkReq token "" (mkTasksQuery None None None None None 1 50) [] None false) in
  isArchived T3 = true
  /\ matches env0 (getTasks_scope A1) T3 = false
  /\ statusCode (response single) = 200%nat
  /\ data (response single) = DataTask T3
  /\ data (response listing) = DataTasks [T1; T2; T4] 3.
Proof. cbv zeta. vm_compute. repeat split; reflexivity. Qed.

(** The filter parameters write into the same query object as the role
    scope: an [assigneeId] parameter replaces the customer's own
    condition, so C2 can list the tasks assigned to C1, which C2 may not
    read one by one. *)
Example getTasks_assigneeId_replaces_the_customer_scope :
  let token := bearer (login_token env0 "C2") in
  data (response (GET_tasks env0 2000 db0
                    (mkReq token "" (mkTasksQuery None None (Some "C1") None None 1 50)
                           [] None false)))
    = DataTasks [T1; T4] 2
  /\ statusCode (response (GET_task env0 2000 db0 (mkReq token "T1" tt [] None false)))
     = 403%nat.
Proof. cbv zeta. vm_compute. split; reflexivity. Qed.

(* ===================================================================== *)
(** ** Bulk update                                                        *)
(* ===================================================================== *)

(** The bulk filter of a vendor: named in the request and owned. *)
Lemma matches_bulk_vendor (env : Env) (user : User) (ids : list ObjectId) (t : Task) :
  role user = vendor ->
  matches env (bulkUpdateTasks_query user ids) t
  = existsb (String.eqb (task_id t)) ids && owned user t.
Proof.
  intro Hr. unfold bulkUpdateTasks_query, matches, owned. rewrite Hr. simpl.
  rewrite ?andb_true_r, ?orb_false_r. reflexivity.
Qed.

Lemma Task_neqb_sym (a b : Task) :
  (if Task_eq_dec a b then false else true) = (if Task_eq_dec b a then false else true).
Proof.
  destruct (Task_eq_dec a b) as [E | E], (Task_eq_dec b a) as [E' | E'];
    try reflexivity; exfalso; apply E' || apply E; now symmetry.
Qed.

(** Counting the differences between a collection and its image under a
    document-wise update. *)
Lemma changed_count_map (f : Task -> Task) (ts : list Task) :
  changed_count ts (map f ts)
  = length (filter (fun t => if Task_eq_dec t (f t) then false else true) ts).
Proof.
  unfold changed_count. induction ts as [| t ts IH]; simpl; [reflexivity |].
  destruct (Task_eq_dec t (f t)); simpl; rewrite IH; reflexivity.
Qed.

(** [modifiedCount] is the number of stored documents that differ after
    [updateMany]. *)
Lemma Task_updateMany_count (env : Env) (q : Filter) (p : Patch) (now : Date)
    (ts : list Task) :
  snd (Task_updateMany env q p now ts)
  = changed_count ts (fst (Task_updateMany env q p now ts)).
Proof.
  unfold Task_updateMany. cbn [fst snd]. rewrite changed_count_map.
  f_equal. apply filter_ext. intro t.
  destruct (matches env q t); simpl.
  - apply Task_neqb_sym.
  - destruct (Task_eq_dec t t) as [_ | E]; [reflexivity | now elim E].
Qed.

Lemma Task_updateMany_nth (env : Env) (q : Filter) (p : Patch) (now : Date)
    (ts : list Task) (i : nat) (t : Task) :
  nth_error ts i = Some t ->
  nth_error (fst (Task_updateMany env q p now ts)) i
  = Some (if matches env q t then applyUpdate p now t else t).
Proof.
  intro H. unfold Task_updateMany. cbn [fst].
  rewrite nth_error_map, H. reflexivity.
Qed.

(** The two ways [bulkUpdateTasks] ends for a resolved actor. *)
Lemma bulkUpdateTasks_cases (env : Env) (now : Date) (db : Db) (req : Req BulkBody)
    (user : User) :
  req_user req = Some user ->
  let r := bulkUpdateTasks env now db req in
  let query := bulkUpdateTasks_query user (taskIds (body req)) in
  (statusCode (response r) = 400%nat /\ db_after r = db)
  \/ (exists update,
        verify_assignee db (updates (body req)) = Some update
        /\ statusCode (response r) = 200%nat
        /\ data (response r)
           = DataModified (snd (Task_updateMany env query update now (tasks db)))
        /\ tasks (db_after r) = fst (Task_updateMany env query update now (tasks db))).
Proof.
  intros Hu r query. unfold r, bulkUpdateTasks.
  destruct (validationErrors req) as [| e es]; simpl.
  - destruct (verify_assignee db (updates (body req))) as [update |] eqn:Hver.
    + right. exists update. rewrite Hu. fold query.
      destruct (Task_updateMany env query update now (tasks db)) as [ts' n] eqn:E.
      simpl. repeat split; reflexivity.
    + left. split; reflexivity.
  - left. split; reflexivity.
Qed.

(** C4: for every vendor and every bulk-update request, the tasks the
    vendor does not own (neither createdBy nor assigneeId is the vendor's
    id) are left unchanged, as are the tasks the request does not name;
    the request is either answered 400 with nothing written, or the
    owned tasks among the submitted ids receive the update and the
    reported modifiedCount is the number of stored tasks that differ
    afterwards -- not the number of ids submitted. *)
Theorem C4_vendor_bulk_update_is_scoped :
  forall (env : Env) (now : Date) (db : Db) (req : Req BulkBody) (user : User),
    req_user req = Some user ->
    role user = vendor ->
    let r := bulkUpdateTasks env now db req in
    let ids := taskIds (body req) in
    (forall i t, nth_error (tasks db) i = Some t -> owned user t = false ->
                 nth_error (tasks (db_after r)) i = Some t)
    /\ (forall i t, nth_error (tasks db) i = Some t ->
                    existsb (String.eqb (task_id t)) ids = false ->
                    nth_error (tasks (db_after r)) i = Some t)
    /\ ((statusCode (response r) = 400%nat /\ db_after r = db)
        \/ (exists update,
              verify_assignee db (updates (body req)) = Some update
              /\ statusCode (response r) = 200%nat
              /\ data (response r)
                 = DataModified (changed_count (tasks db) (tasks (db_after r)))
              /\ (forall i t, nth_error (tasks db) i = Some t ->
                              owned user t = true ->
                              existsb (String.eqb (task_id t)) ids = true ->
                              nth_error (tasks (db_after r)) i
                              = Some (applyUpdate update now t)))).
Proof.
  intros env now db req user Hu Hrole r ids.
  pose proof (bulkUpdateTasks_cases env now db req user Hu) as Hcases.
  cbv zeta in Hcases. fold r in Hcases. fold ids in Hcases.
  destruct Hcases as [[H400 Hdb] | (update & Hver & H200 & Hdata & Htasks)].
  - split; [| split].
    + intros i t Hi _. rewrite Hdb. exact Hi.
    + intros i t Hi _. rewrite Hdb. exact Hi.
    + left. split; assumption.
  - split; [| split].
    + intros i t Hi Ho. rewrite Htasks, (Task_updateMany_nth _ _ _ _ _ _ _ Hi).
      rewrite (matches_bulk_vendor env user ids t Hrole), Ho, andb_false_r. reflexivity.
    + intros i t Hi Hn. rewrite Htasks, (Task_updateMany_nth _ _ _ _ _ _ _ Hi).
      rewrite (matches_bulk_vendor env user ids t Hrole), Hn. reflexivity.
    + right. exists update. split; [exact Hver | split; [exact H200 | split]].
      * rewrite Hdata, Htasks. f_equal. apply Task_updateMany_count.
      * intros i t Hi Ho Hin. rewrite Htasks, (Task_updateMany_nth _ _ _ _ _ _ _ Hi).
        rewrite (matches_bulk_vendor env user ids t Hrole), Ho, Hin. reflexivity.
Qed.

(** C4, checked on the vendor V1 submitting the ids of T1 (created by
    V1) and T2 (neither created by nor assigned to V1): T2 stays as it
    was and the reported count is 1 for two submitted ids. *)
Lemma C4_vendor_bulk_update_is_scoped_witness :
  let req := mkReq None "" (mkBulkBody ["T1"; "T2"] patch_priority_high) [] (Some V1) false in
  let r := bulkUpdateTasks env0 2000 db0 req in
  (role V1 = vendor /\ owned V1 T2 = false)
  /\ nth_error (tasks (db_after r)) 1 = Some T2
  /\ data (response r) = DataModified 1
  /\ length (taskIds (body req)) = 2%nat.
Proof.
  intros req r.
  pose proof (C4_vendor_bulk_update_is_scoped env0 2000 db0 req V1 eq_refl eq_refl) as H.
  cbv zeta in H. destruct H as (Hun & _ & _).
  split; [split; reflexivity | split; [| split; reflexivity]].
  exact (Hun 1%nat T2 eq_refl eq_refl).
Defined.

(* ===================================================================== *)
(** ** Identity: who gets past the three entrances                        *)
(* ===================================================================== *)

Section Entrances.

Variables (env : Env) (now : Date) (db : Db).

(** Walk through the decisions of [protect] in source order. *)
Ltac protect_cases req :=
  unfold protect;
  let h := fresh "h" in
  let tok := fresh "tok" in
  let decoded := fresh "decoded" in
  let u := fresh "u" in
  destruct (headers_authorization req) as [h |] eqn:?;
    [destruct (String.prefix "Bearer" (first_word h));
       [destruct (second_word h) as [tok |] eqn:?;
          [destruct (negb (Token_truthy tok));
             [| destruct (jwt_verify now tok (JWT_SECRET env)) as [decoded |] eqn:?;
                  [destruct (User_findById (payload_userId decoded) (users db))
                     as [u |] eqn:?;
                     [destruct (isActive u) eqn:?; cbn [negb] |] |]] |] |] |].

(** [protect] answers 401 whenever it does not pass the request on. *)
Lemma protect_Respond_401 {B} (req : Req B) (res : Response) :
  protect env now db req = Respond res -> Unauthorized res.
Proof.
  unfold Unauthorized. protect_cases req;
    intro H; try discriminate H; injection H as <-; reflexivity.
Qed.

(** [protect] never fails with an exception in this model. *)
Lemma protect_no_NextError {B} (req : Req B) (err : string) :
  protect env now db req <> NextError err.
Proof. protect_cases req; discriminate. Qed.

(** Whoever [protect] lets through was looked up under the key
    "userId" and is active. *)
Lemma protect_Next {B} (req req' : Req B) :
  protect env now db req = Next req' ->
  exists h tok decoded u,
    headers_authorization req = Some h /\ second_word h = Some tok
    /\ jwt_verify now tok (JWT_SECRET env) = Some decoded
    /\ User_findById (payload_userId decoded) (users db) = Some u
    /\ isActive u = true /\ req' = with_user u req.
Proof.
  protect_cases req; intro H; try discriminate H. injection H as <-.
  repeat eexists; eassumption.
Qed.

(** A request that [protect] stops is answered by [protect] alone: the
    rest of the chain does not run, nothing is written or emitted. *)
Lemma via_protect_denied {B} (req : Req B) (k : Req B -> Result) :
  (forall req', protect env now db req <> Next req') ->
  exists res, via (protect env now db req) db k = reply res db /\ Unauthorized res.
Proof.
  intro Hn. destruct (protect env now db req) as [req' | res | err] eqn:E.
  - now elim (Hn req').
  - exists res. split; [reflexivity | exact (protect_Respond_401 req res E)].
  - now elim (protect_no_NextError req err).
Qed.

(** Whoever socket authentication lets through was looked up under the
    key "id" and is active. *)
Lemma authenticateSocket_inl (tok : Token) (u : User) :
  authenticateSocket env now db (Some tok) = inl u ->
  exists decoded,
    jwt_verify now tok (JWT_SECRET env) = Some decoded
    /\ User_findById (payload_id decoded) (users db) = Some u
    /\ isActive u = true.
Proof.
  unfold authenticateSocket.
  destruct (negb (Token_truthy tok)); [discriminate |].
  destruct (jwt_verify now tok (JWT_SECRET env)) as [decoded |]; [| discriminate].
  destruct (User_findById (payload_id decoded) (users db)) as [u' |] eqn:Eu;
    [| discriminate].
  destruct (isActive u') eqn:Ea; simpl; [| discriminate].
  intro H. injection H as <-. exists decoded. repeat split; assumption.
Qed.

End Entrances.

(** Verification hands back the claims that were signed. *)
Lemma jwt_verify_Signed (now : Date) (claims decoded : Payload) (key : string)
    (exp : option Z) (secret : string) :
  jwt_verify now (Signed claims key exp) secret = Some decoded -> decoded = claims.
Proof.
  simpl. destruct (String.eqb key secret); [| discriminate].
  destruct exp as [e |].
  - destruct (e <=? now / 1000); [discriminate |]. intro H. now injection H.
  - intro H. now injection H.
Qed.

Lemma not_inl_refused (r : User + string) :
  (forall u, r <> inl u) -> refused r.
Proof. destruct r as [u | e]; intro H; [now elim (H u) | exact I]. Qed.

(** C5: for every actor whose isActive is false, whatever the role:
    a REST request whose token names the actor is answered 401 by
    [protect] and the rest of the chain does not run; a login with the
    actor's email is answered 401, whatever the password; a socket
    handshake whose token names the actor is refused.  Conversely the
    three entrances only ever admit active users. *)
Theorem C5_inactive_actor_is_denied :
  forall (env : Env) (now : Date) (db : Db) (user : User),
    isActive user = false ->
    (forall (B : Type) (req : Req B) (claims : Payload) (key : string) (exp : option Z)
            (k : Req B -> Result),
        headers_authorization req = bearer (Signed claims key exp) ->
        User_findById (payload_userId claims) (users db) = Some user ->
        exists res, via (protect env now db req) db k = reply res db /\ Unauthorized res)
    /\ (forall req : Req LoginBody,
        validationErrors req = [] ->
        User_findByEmail (login_email (body req)) (users db) = Some user ->
        exists res, login env now db req = reply res db /\ Unauthorized res)
    /\ (forall (claims : Payload) (key : string) (exp : option Z),
        User_findById (payload_id claims) (users db) = Some user ->
        refused (authenticateSocket env now db (Some (Signed claims key exp))))
    /\ (forall (B : Type) (req req' : Req B),
        protect env now db req = Next req' ->
        exists u, req_user req' = Some u /\ isActive u = true)
    /\ (forall (tok : Token) (u : User),
        authenticateSocket env now db (Some tok) = inl u -> isActive u = true)
    /\ (forall (req : Req LoginBody) (tok : Token) (u : User),
        data (response (login env now db req)) = DataToken tok u -> isActive u = true).
Proof.
  intros env now db user Hina. repeat split.
  - intros B req claims key exp k Hh Hu. apply via_protect_denied.
    intros req' Hn. apply protect_Next in Hn.
    destruct Hn as (h & tok & decoded & u & Hh' & Htok & Hv & Hfind & Hact & _).
    rewrite Hh in Hh'. injection Hh' as <-. simpl in Htok. injection Htok as <-.
    apply jwt_verify_Signed in Hv. subst decoded.
    rewrite Hu in Hfind. injection Hfind as <-. congruence.
  - intros req Hv Hu. unfold login. rewrite Hv, Hu, Hina. simpl.
    eexists. split; reflexivity.
  - intros claims key exp Hu. apply not_inl_refused. intros u Hin.
    apply authenticateSocket_inl in Hin. destruct Hin as (decoded & Hv & Hfind & Hact).
    apply jwt_verify_Signed in Hv. subst decoded.
    rewrite Hu in Hfind. injection Hfind as <-. congruence.
  - intros B req req' Hn. apply protect_Next in Hn.
    destruct Hn as (h & tok & decoded & u & _ & _ & _ & _ & Hact & ->).
    exists u. split; [reflexivity | exact Hact].
  - intros tok u Hin. apply authenticateSocket_inl in Hin.
    destruct Hin as (decoded & _ & _ & Hact). exact Hact.
  - intros req tok u. unfold login.
    destruct (negb (length (validationErrors req) =? 0)%nat); [discriminate |].
    destruct (User_findByEmail (login_email (body req)) (users db)) as [u' |];
      [| discriminate].
    destruct (isActive u') eqn:Ea; simpl; [| discriminate].
    destruct (negb (bcrypt_compare env (login_password (body req)) (password u')));
      [discriminate |].
    simpl. intro H. injection H as _ <-. reflexivity.
Qed.

(** C5, checked on the deactivated vendor V9: a request carrying V9's
    login token, a login with V9's email and correct password, and a
    handshake carrying V9's registration token. *)
Lemma C5_inactive_actor_is_denied_witness :
  isActive V9 = false
  /\ (exists res,
        PUT_task env0 2000 db0
          (mkReq (bearer (login_token env0 "V9")) "T1" patch_status_done [] None false)
        = reply res db0 /\ Unauthorized res)
  /\ (exists res,
        login env0 2000 db0
          (mkReq None "" (mkLoginBody "val@example.com" "pw-x") [] None false)
        = reply res db0 /\ Unauthorized res)
  /\ refused (authenticateSocket env0 2000 db0 (Some (generateToken env0 1000 "V9"))).
Proof.
  destruct (C5_inactive_actor_is_denied env0 2000 db0 V9 eq_refl) as (Hrest & Hlogin & Hsock & _).
  split; [reflexivity | split; [| split]].
  - exact (Hrest Patch
             (mkReq (bearer (login_token env0 "V9")) "T1" patch_status_done [] None false)
             (mkPayload None (Some "V9")) "s3cret" None
             (fun req => via (checkTaskAccess db0 req) db0 (updateTask 2000 db0))
             eq_refl eq_refl).
  - exact (Hlogin (mkReq None "" (mkLoginBody "val@example.com" "pw-x") [] None false)
             eq_refl eq_refl).
  - exact (Hsock (mkPayload (Some "V9") None) "s3cret" (Some 604801) eq_refl).
Defined.

(** C9: issuance and verification disagree on the claim key.  For every
    user id, the token [generateToken] produces (key "id") is answered
    401 by [protect], which reads "userId", at any time and against any
    database; the token [login] signs (key "userId") is refused by
    socket authentication, which reads "id".  Every token [register]
    hands out is of the first kind and every token [login] hands out of
    the second, so no issued token is accepted on both the REST and the
    realtime interface. *)
Theorem C9_issued_tokens_fit_one_interface_only :
  forall (env : Env) (now issued : Date) (db : Db) (id : ObjectId),
    (forall (B : Type) (req : Req B) (k : Req B -> Result),
        headers_authorization req = bearer (generateToken env issued id) ->
        exists res, via (protect env now db req) db k = reply res db /\ Unauthorized res)
    /\ refused (authenticateSocket env now db (Some (login_token env id)))
    /\ (forall (newId : ObjectId) (hashed : string) (req : Req RegisterBody)
               (tok : Token) (u : User),
        data (response (register env issued newId hashed db req)) = DataToken tok u ->
        tok = generateToken env issued newId)
    /\ (forall (req : Req LoginBody) (tok : Token) (u : User),
        data (response (login env issued db req)) = DataToken tok u ->
        tok = login_token env (user_id u))
    /\ (forall (tok : Token) (B : Type) (req req' : Req B) (u : User),
        tok = generateToken env issued id \/ tok = login_token env id ->
        headers_authorization req = bearer tok ->
        ~ (protect env now db req = Next req'
           /\ authenticateSocket env now db (Some tok) = inl u)).
Proof.
  intros env now issued db id.
  assert (Hrest : forall (B : Type) (req req' : Req B),
             headers_authorization req = bearer (generateToken env issued id) ->
             protect env now db req <> Next req').
  { intros B req req' Hh Hn. apply protect_Next in Hn.
    destruct Hn as (h & tok & decoded & u & Hh' & Htok & Hv & Hfind & _).
    rewrite Hh in Hh'. injection Hh' as <-. simpl in Htok. injection Htok as <-.
    apply jwt_verify_Signed in Hv. subst decoded. discriminate Hfind. }
  assert (Hsock : forall u, authenticateSocket env now db (Some (login_token env id)) <> inl u).
  { intros u Hin. apply authenticateSocket_inl in Hin.
    destruct Hin as (decoded & Hv & Hfind & _).
    apply jwt_verify_Signed in Hv. subst decoded. discriminate Hfind. }
  split; [| split; [| split; [| split]]].
  - intros B req k Hh. apply via_protect_denied. intros req'. now apply Hrest.
  - now apply not_inl_refused.
  - intros newId hashed req tok u. unfold register.
    destruct (negb (length (validationErrors req) =? 0)%nat); [discriminate |].
    destruct (User_findByEmail (register_email (body req)) (users db)); [discriminate |].
    simpl. intro H. now injection H as <-.
  - intros req tok u. unfold login.
    destruct (negb (length (validationErrors req) =? 0)%nat); [discriminate |].
    destruct (User_findByEmail (login_email (body req)) (users db)) as [u' |];
      [| discriminate].
    destruct (negb (isActive u')); [discriminate |].
    destruct (negb (bcrypt_compare env (login_password (body req)) (password u')));
      [discriminate |].
    simpl. intro H. injection H as <- <-. reflexivity.
  - intros tok B req req' u [-> | ->] Hh [Hn Hin].
    + exact (Hrest B req req' Hh Hn).
    + exact (Hsock u Hin).
Qed.

(** C9, checked on the customer C1: the token C1 would get from
    [register] is turned away by the task routes, the token C1 gets from
    [login] by the socket, although C1 is active and both tokens are
    validly signed and unexpired. *)
Lemma C9_issued_tokens_fit_one_interface_only_witness :
  let login_request := mkReq None "" (mkLoginBody "cyd@example.com" "pw-c") [] None false in
  (exists tok u,
      data (response (login env0 1000 db0 login_request)) = DataToken tok u
      /\ tok = login_token env0 (user_id u)
      /\ user_id u = "C1")
  /\ refused (authenticateSocket env0 2000 db0 (Some (login_token env0 "C1")))
  /\ (exists res,
        GET_task env0 2000 db0 (mkReq (bearer (generateToken env0 1000 "C1")) "T1" tt [] None false)
        = reply res db0 /\ Unauthorized res).
Proof.
  intro login_request.
  destruct (C9_issued_tokens_fit_one_interface_only env0 2000 1000 db0 "C1")
    as (Hrest & Hsock & _ & Hlogin & _).
  split; [| split].
  - exists (login_token env0 "C1"),
           (mkUser "C1" "Cyd" "cyd@example.com" "pw-c" customer true (Some 1000)).
    split; [reflexivity | split; [| reflexivity]].
    exact (Hlogin login_request (login_token env0 "C1")
             (mkUser "C1" "Cyd" "cyd@example.com" "pw-c" customer true (Some 1000))
             eq_refl).
  - exact Hsock.
  - exact (Hrest unit (mkReq (bearer (generateToken env0 1000 "C1")) "T1" tt [] None false)
             (getTask db0) eq_refl).
Defined.

(* ===================================================================== *)
(** ** Event fanout                                                       *)
(* ===================================================================== *)

(** What the socket handler for 'taskUpdate' reaches: the members of the
    task room, the admins and the vendors, the sender excepted. *)
Lemma on_taskUpdate_receivers (conns : list Socket) (sid : nat)
    (taskId content : string) (s : Socket) :
  receives conns (on_taskUpdate sid taskId content) s
  <-> In s conns /\ Nat.eqb (socket_id s) sid = false
      /\ (in_room ("task_" ++ taskId)%string s || in_room "role_admin" s
          || in_room "role_vendor" s) = true.
Proof.
  unfold receives, on_taskUpdate. split.
  - intros (e & Hin & Hrec). cbn [In] in Hin.
    destruct Hin as [<- | [<- | [<- | []]]]; cbn [recipients] in Hrec;
      apply filter_In in Hrec; destruct Hrec as [Hc Hb];
      apply andb_prop in Hb; destruct Hb as [Hroom Hsid];
      apply negb_true_iff in Hsid;
      (split; [exact Hc | split; [exact Hsid |]]);
      rewrite Hroom, ?orb_true_r; reflexivity.
  - intros (Hc & Hsid & Hrooms).
    apply orb_prop in Hrooms. destruct Hrooms as [Hrooms | Hv].
    + apply orb_prop in Hrooms. destruct Hrooms as [Ht | Ha].
      * eexists. split; [left; reflexivity |].
        cbn [recipients]. apply filter_In. split; [exact Hc |]. now rewrite Ht, Hsid.
      * eexists. split; [right; left; reflexivity |].
        cbn [recipients]. apply filter_In. split; [exact Hc |]. now rewrite Ha, Hsid.
    + eexists. split; [right; right; left; reflexivity |].
      cbn [recipients]. apply filter_In. split; [exact Hc |]. now rewrite Hv, Hsid.
Qed.

(** Whatever a REST task mutation hands to Socket.IO goes to every
    connection. *)
Lemma emit_if_reaches_all (io : bool) (event : string) (d : EventData)
    (conns : list Socket) (e : Emit) :
  In e (emit_if io (io_emit event d)) -> recipients conns e = conns.
Proof.
  destruct io; simpl; [| contradiction]. intros [<- | []]. reflexivity.
Qed.

Lemma updateTask_reaches_all (now : Date) (db : Db) (req : Req Patch)
    (conns : list Socket) (e : Emit) :
  In e (emitted (updateTask now db req)) -> recipients conns e = conns.
Proof.
  unfold updateTask, Task_findByIdAndUpdate.
  destruct (negb (length (validationErrors req) =? 0)%nat); [contradiction |].
  destruct (Task_findById (params_id req) (tasks db)); [| contradiction].
  destruct (verify_assignee db (body req)); [| contradiction].
  apply emit_if_reaches_all.
Qed.

Lemma deleteTask_reaches_all (db : Db) (req : Req unit)
    (conns : list Socket) (e : Emit) :
  In e (emitted (deleteTask db req)) -> recipients conns e = conns.
Proof.
  unfold deleteTask.
  destruct (Task_findById (params_id req) (tasks db)); [| contradiction].
  apply emit_if_reaches_all.
Qed.

Lemma createTask_reaches_all (now : Date) (newId : ObjectId) (db : Db) (req : Req Patch)
    (conns : list Socket) (e : Emit) :
  In e (emitted (createTask now newId db req)) -> recipients conns e = conns.
Proof.
  unfold createTask.
  destruct (negb (length (validationErrors req) =? 0)%nat); [contradiction |].
  destruct (User_findById (patch_assigneeId (body req)) (users db)); [| contradiction].
  destruct (req_user req); [| contradiction].
  destruct (patch_title (body req)); [| contradiction].
  destruct (patch_dueDate (body req)); [| contradiction].
  apply emit_if_reaches_all.
Qed.

(** C6: at a concrete deployment the REST fanout reaches a customer who
    is outside every channel the claim names.  The customer C2 is
    connected, is in neither task_T1 nor role_admin nor role_vendor, and
    may not read T1 (403).  The administrator creates a task, updates
    T1 and deletes T1 over REST with [req.io] attached: each mutation
    emits one [io.emit], and C2's connection receives all three events.
    The socket handler for 'taskUpdate' on the same task does not reach
    C2. *)
Theorem C6_rest_fanout_reaches_every_connection :
  let token := bearer (login_token env0 "A1") in
  let created := POST_task env0 2000 "T9" db0 (mkReq token "" patch_new_task [] None true) in
  let updated := PUT_task env0 2000 db0 (mkReq token "T1" patch_priority_high [] None true) in
  let deleted := DELETE_task env0 2000 db0 (mkReq token "T1" tt [] None true) in
  In socket_C2 conns0
  /\ role (socket_user socket_C2) = customer
  /\ in_room "task_T1" socket_C2 = false
  /\ in_room "role_admin" socket_C2 = false
  /\ in_room "role_vendor" socket_C2 = false
  /\ statusCode (response (getTask db0 (mkReq None "T1" tt [] (Some C2) false))) = 403%nat
  /\ emitted created = [io_emit "taskCreated"
                          (EvTask (mkTask "T9" "Ship it" "" medium todo "Cyd" "C1" "A1" 9000
                                          [] [] 0 [] false None 2000 2000))]
  /\ emitted updated = [io_emit "taskUpdated" (EvTask (applyUpdate patch_priority_high 2000 T1))]
  /\ emitted deleted = [io_emit "taskDeleted" (EvTaskId "T1")]
  /\ receives conns0 (emitted created) socket_C2
  /\ receives conns0 (emitted updated) socket_C2
  /\ receives conns0 (emitted deleted) socket_C2
  /\ ~ receives conns0 (on_taskUpdate 3 "T1" "edited") socket_C2.
Proof.
  cbv zeta.
  assert (Hin : In socket_C2 conns0) by (right; left; reflexivity).
  repeat match goal with |- _ /\ _ => split end; try (vm_compute; reflexivity).
  - exact Hin.
  - eexists. split; [left; reflexivity | exact Hin].
  - eexists. split; [left; reflexivity | exact Hin].
  - eexists. split; [left; reflexivity | exact Hin].
  - rewrite on_taskUpdate_receivers. intros (_ & _ & H). vm_compute in H. discriminate H.
Qed.

(* ===================================================================== *)
(** ** User routes                                                        *)
(* ===================================================================== *)





(* ===================================================================== *)
(** ** Further properties: who may do what                                *)
(* ===================================================================== *)

Lemma Unauthorized_not_200 (res : Response) :
  Unauthorized res -> statusCode res <> 200%nat.
Proof. unfold Unauthorized. intros -> H. discriminate H. Qed.

(** [authorize] passes exactly the users whose role is listed, and hands
    the request on untouched. *)
Lemma authorize_Some {B} (roles : list Role) (req : Req B) (u : User) :
  req_user req = Some u ->
  authorize roles req
  = if existsb (Role_eqb (role u)) roles then Next req
    else Respond (mkResponse 403 false "User role is not authorized to access this route"
                             NoData).
Proof.
  intro Hu. unfold authorize. rewrite Hu.
  destruct (existsb (Role_eqb (role u)) roles); reflexivity.
Qed.

(** What a chain that starts with [protect] can do when [protect] does
    not pass the request on: answer 401 and nothing else. *)
Lemma via_protect_cases {B} (env : Env) (now : Date) (db : Db) (req : Req B)
    (k : Req B -> Result) :
  (exists u, protect env now db req = Next (with_user u req) /\ isActive u = true
             /\ via (protect env now db req) db k = k (with_user u req))
  \/ (exists res, via (protect env now db req) db k = reply res db /\ Unauthorized res).
Proof.
  destruct (protect env now db req) as [req' | res | err] eqn:E.
  - left. destruct (protect_Next env now db req req' E)
      as (h & tok & decoded & u & _ & _ & _ & _ & Hact & ->).
    exists u. repeat split; assumption || reflexivity.
  - right. exists res. split; [reflexivity | exact (protect_Respond_401 env now db req res E)].
  - now elim (protect_no_NextError env now db req err).
Qed.

Lemma via_out_protect_cases {B A} (env : Env) (now : Date) (db : Db) (req : Req B)
    (k : Req B -> Outcome A) :
  (exists u, protect env now db req = Next (with_user u req) /\ isActive u = true
             /\ via_out (protect env now db req) db k = k (with_user u req))
  \/ (exists msg, via_out (protect env now db req) db k = failed 401 msg db).
Proof.
  destruct (protect env now db req) as [req' | res | err] eqn:E.
  - left. destruct (protect_Next env now db req req' E)
      as (h & tok & decoded & u & _ & _ & _ & _ & Hact & ->).
    exists u. repeat split; assumption || reflexivity.
  - right. exists (message res). simpl.
    rewrite (protect_Respond_401 env now db req res E). reflexivity.
  - now elim (protect_no_NextError env now db req err).
Qed.

(** X1: the two delete routes write, emit or answer 200 only for an
    active administrator. *)
Theorem delete_routes_admin_only :
  forall (env : Env) (now : Date) (db : Db) (req : Req unit)
         (breq : Req (option (list ObjectId))),
    let r := DELETE_task env now db req in
    let rb := DELETE_tasks_bulk_delete env now db breq in
    ((statusCode (response r) = 200%nat \/ db_after r <> db \/ emitted r <> []) ->
     exists u, protect env now db req = Next (with_user u req)
               /\ role u = admin /\ isActive u = true)
    /\ ((out_status rb = 200%nat \/ out_db rb <> db \/ out_messages rb <> []) ->
        exists u, protect env now db breq = Next (with_user u breq)
                  /\ role u = admin /\ isActive u = true).
Proof.
  intros env now db req breq r rb. split.
  - intro H. unfold r, DELETE_task in H.
    destruct (via_protect_cases env now db req
                (fun req => via (authorize [admin] req) db (deleteTask db)))
      as [(u & Hp & Hact & Hv) | (res & Hv & H401)]; rewrite Hv in H.
    + rewrite (authorize_Some [admin] (with_user u req) u eq_refl) in H.
      destruct (role u) eqn:Hr; simpl in H.
      * exists u. repeat split; assumption.
      * exfalso. destruct H as [H | [H | H]]; [discriminate H | now apply H | now apply H].
      * exfalso. destruct H as [H | [H | H]]; [discriminate H | now apply H | now apply H].
    + exfalso. simpl in H. destruct H as [H | [H | H]];
        [exact (Unauthorized_not_200 res H401 H) | now apply H | now apply H].
  - intro H. unfold rb, DELETE_tasks_bulk_delete in H.
    destruct (via_out_protect_cases env now db breq
                (fun req => via_out (authorize [admin] req) db (bulkDeleteTasks db)))
      as [(u & Hp & Hact & Hv) | (msg & Hv)]; rewrite Hv in H.
    + rewrite (authorize_Some [admin] (with_user u breq) u eq_refl) in H.
      destruct (role u) eqn:Hr; simpl in H.
      * exists u. repeat split; assumption.
      * exfalso. destruct H as [H | [H | H]]; [discriminate H | now apply H | now apply H].
      * exfalso. destruct H as [H | [H | H]]; [discriminate H | now apply H | now apply H].
    + exfalso. simpl in H. destruct H as [H | [H | H]];
        [discriminate H | now apply H | now apply H].
Qed.

(** X1, checked on the administrator A1 deleting T1. *)
Lemma delete_routes_admin_only_witness :
  exists u, protect env0 2000 db0 (mkReq (bearer (login_token env0 "A1")) "T1" tt [] None false)
            = Next (with_user u (mkReq (bearer (login_token env0 "A1")) "T1" tt [] None false))
            /\ role u = admin /\ isActive u = true.
Proof.
  exact (proj1 (delete_routes_admin_only env0 2000 db0
                  (mkReq (bearer (login_token env0 "A1")) "T1" tt [] None false)
                  (mkReq None "" None [] None false))
               (or_introl eq_refl)).
Defined.

(** X2: a customer who is let in by [protect] is answered 403 on task
    creation and on bulk update; nothing is written and nothing emitted. *)
Theorem customers_cannot_create_or_bulk_update :
  forall (env : Env) (now : Date) (newId : ObjectId) (db : Db)
         (req : Req Patch) (breq : Req BulkBody) (u : User),
    protect env now db req = Next (with_user u req) ->
    protect env now db breq = Next (with_user u breq) ->
    role u = customer ->
    let r := POST_task env now newId db req in
    let rb := PUT_tasks_bulk_update env now db breq in
    (Forbidden (response r) /\ db_after r = db /\ emitted r = [])
    /\ (Forbidden (response rb) /\ db_after rb = db /\ emitted rb = []).
Proof.
  intros env now newId db req breq u Hp Hpb Hr r rb.
  unfold r, rb, POST_task, PUT_tasks_bulk_update. rewrite Hp, Hpb. simpl via.
  rewrite (authorize_Some _ (with_user u req) u eq_refl).
  rewrite (authorize_Some _ (with_user u breq) u eq_refl).
  rewrite Hr. simpl. unfold Forbidden. repeat split; reflexivity.
Qed.

(** X2, checked on the customer C1. *)
Lemma customers_cannot_create_or_bulk_update_witness :
  Forbidden (response (POST_task env0 2000 "T9" db0
                         (mkReq (bearer (login_token env0 "C1")) "" patch_new_task [] None true)))
  /\ Forbidden (response (PUT_tasks_bulk_update env0 2000 db0
                            (mkReq (bearer (login_token env0 "C1")) ""
                                   (mkBulkBody ["T1"] patch_priority_high) [] None true))).
Proof.
  pose proof (customers_cannot_create_or_bulk_update env0 2000 "T9" db0
                (mkReq (bearer (login_token env0 "C1")) "" patch_new_task [] None true)
                (mkReq (bearer (login_token env0 "C1")) ""
                       (mkBulkBody ["T1"] patch_priority_high) [] None true)
                C1 eq_refl eq_refl eq_refl) as H.
  cbv zeta in H. destruct H as ((H1 & _) & (H2 & _)). split; assumption.
Defined.

Lemma Role_eqb_refl (r : Role) : Role_eqb r r = true.
Proof. destruct r; reflexivity. Qed.



Lemma checkTaskAccess_outsider {B} (db : Db) (req : Req B) (u : User) (task : Task) :
  req_user req = Some u ->
  Task_findById (params_id req) (tasks db) = Some task ->
  role u <> admin ->
  assigneeId task <> user_id u ->
  (role u = vendor -> createdBy task <> user_id u) ->
  checkTaskAccess db req = Respond taskForbidden.
Proof.
  intros Hu Ht Hadm Ha Hc. unfold checkTaskAccess. rewrite Hu, Ht.
  apply String.eqb_neq in Ha. rewrite Ha.
  destruct (role u) eqn:Hr; simpl.
  - now elim Hadm.
  - specialize (Hc eq_refl). apply String.eqb_neq in Hc. rewrite Hc. reflexivity.
  - reflexivity.
Qed.

(** X4: an authenticated vendor or customer who is not the assignee of a
    task (and, for a vendor, not its creator) is answered 403 when
    updating the task, commenting on it or updating one of its subtasks;
    none of the three requests writes or emits anything. *)
Theorem outsiders_cannot_touch_a_task :
  forall (env : Env) (now : Date) (db : Db) (req : Req Patch) (creq : Req string)
         (sreq : Req SubtaskBody) (u : User) (task : Task),
    protect env now db req = Next (with_user u req) ->
    protect env now db creq = Next (with_user u creq) ->
    protect env now db sreq = Next (with_user u sreq) ->
    params_id creq = params_id req ->
    params_id sreq = params_id req ->
    Task_findById (params_id req) (tasks db) = Some task ->
    role u <> admin ->
    assigneeId task <> user_id u ->
    (role u = vendor -> createdBy task <> user_id u) ->
    let r := PUT_task env now db req in
    let rc := POST_task_comments env now db creq in
    let rs := PUT_task_subtask env now db sreq in
    (Forbidden (response r) /\ db_after r = db /\ emitted r = [])
    /\ (Forbidden (response rc) /\ db_after rc = db /\ emitted rc = [])
    /\ (out_status rs = 403%nat /\ out_db rs = db /\ out_messages rs = []).
Proof.
  intros env now db req creq sreq u task Hp Hpc Hps Hc Hs Ht Hadm Ha Hcb r rc rs.
  unfold r, rc, rs, PUT_task, POST_task_comments, PUT_task_subtask.
  rewrite Hp, Hpc, Hps. simpl via. simpl via_out.
  rewrite (checkTaskAccess_outsider db (with_user u req) u task); try assumption;
    try reflexivity.
  rewrite (checkTaskAccess_outsider db (with_user u creq) u task); try assumption;
    try reflexivity; [| simpl; rewrite Hc; exact Ht].
  rewrite (checkTaskAccess_outsider db (with_user u sreq) u task); try assumption;
    try reflexivity; [| simpl; rewrite Hs; exact Ht].
  unfold Forbidden. simpl. repeat split; reflexivity.
Qed.

(** X4, checked on the customer C2 and the task T1, assigned to C1. *)
Lemma outsiders_cannot_touch_a_task_witness :
  let token := bearer (login_token env0 "C2") in
  Forbidden (response (PUT_task env0 2000 db0 (mkReq token "T1" patch_priority_high [] None true)))
  /\ Forbidden (response (POST_task_comments env0 2000 db0 (mkReq token "T1" "hi" [] None true)))
  /\ out_status (PUT_task_subtask env0 2000 db0
                   (mkReq token "T1" (mkSubtaskBody "s" (mkSubtaskPatch None (Some true)))
                          [] None true)) = 403%nat.
Proof.
  intro token.
  assert (Hadm : role C2 <> admin) by discriminate.
  assert (Ha : assigneeId T1 <> user_id C2) by discriminate.
  assert (Hc : role C2 = vendor -> createdBy T1 <> user_id C2) by discriminate.
  pose proof (outsiders_cannot_touch_a_task env0 2000 db0
                (mkReq token "T1" patch_priority_high [] None true)
                (mkReq token "T1" "hi" [] None true)
                (mkReq token "T1" (mkSubtaskBody "s" (mkSubtaskPatch None (Some true)))
                       [] None true)
                C2 T1 eq_refl eq_refl eq_refl eq_refl eq_refl eq_refl Hadm Ha Hc) as H.
  cbv zeta in H. destruct H as ((H1 & _) & (H2 & _) & (H3 & _)).
  split; [exact H1 | split; [exact H2 | exact H3]].
Defined.

(* ===================================================================== *)
(** ** Further properties: listings and statistics                        *)
(* ===================================================================== *)

Lemma In_firstn_In {A} (n : nat) (l : list A) (x : A) : In x (firstn n l) -> In x l.
Proof.
  revert l. induction n as [| n IH]; intros [| a l]; simpl; try tauto.
  intros [H | H]; [now left | right; now apply IH].
Qed.

Lemma In_skipn_In {A} (n : nat) (l : list A) (x : A) : In x (skipn n l) -> In x l.
Proof.
  revert l. induction n as [| n IH]; intros [| a l]; simpl; try tauto.
  intro H. right. now apply IH.
Qed.

(** The filter parameters leave the archive condition alone, and only
    [assigneeId] and [search] write over a key the role scope uses. *)
Lemma getTasks_query_keys (user : User) (q : TasksQuery) :
  filter_isArchived (getTasks_query user q) = Some false
  /\ (truthy_string (query_assigneeId q) = None ->
      filter_assigneeId (getTasks_query user q) = filter_assigneeId (getTasks_scope user))
  /\ (truthy_string (query_search q) = None ->
      filter_or (getTasks_query user q) = filter_or (getTasks_scope user)).
Proof.
  unfold getTasks_query, truthy_string.
  assert (Harch : filter_isArchived (getTasks_scope user) = Some false).
  { unfold getTasks_scope. destruct (role user); reflexivity. }
  destruct (query_status q) as [qs |], (query_priority q) as [qp |];
    destruct (query_assigneeId q) as [qa |]; try destruct (string_truthy qa);
    destruct (query_tags q) as [qt |]; try destruct (string_truthy qt);
    destruct (query_search q) as [qx |]; try destruct (string_truthy qx);
    simpl; (split; [exact Harch | split; intro H; try discriminate H; reflexivity]).
Qed.

Lemma matches_keys (env : Env) (q : Filter) (t : Task) :
  matches env q t = true ->
  holds (filter_isArchived q) (Bool.eqb (isArchived t)) = true
  /\ holds (filter_assigneeId q) (String.eqb (assigneeId t)) = true
  /\ holds (filter_or q) (existsb (clause_matches env t)) = true.
Proof.
  unfold matches. intro H.
  repeat (apply andb_prop in H; destruct H as [H ?]).
  repeat split; assumption.
Qed.

(** X5: the role scope of the task listing survives the filter
    parameters, except that [assigneeId] replaces a customer's condition
    and [search] a vendor's.  Without that one parameter every listed
    task is stored, not archived and, for a customer, assigned to them,
    for a vendor, assigned to or created by them; the page is no longer
    than the limit and than the reported total.  Page and limit are at
    least 1, as the validation of the route demands. *)
Theorem getTasks_keeps_the_role_scope :
  forall (env : Env) (db : Db) (req : Req TasksQuery) (user : User)
         (ts : list Task) (total : nat),
    req_user req = Some user ->
    (1 <= query_page (body req))%nat ->
    (1 <= query_limit (body req))%nat ->
    (role user = customer -> truthy_string (query_assigneeId (body req)) = None) ->
    (role user = vendor -> truthy_string (query_search (body req)) = None) ->
    data (response (getTasks env db req)) = DataTasks ts total ->
    (forall t, In t ts ->
               In t (tasks db) /\ isArchived t = false
               /\ match role user with
                  | admin => True
                  | vendor => owned user t = true
                  | customer => assigneeId t = user_id user
                  end)
    /\ (length ts <= query_limit (body req))%nat
    /\ (length ts <= total)%nat.
Proof.
  intros env db req user ts total Hu _ _ Hcust Hvend Hdata.
  unfold getTasks in Hdata. rewrite Hu in Hdata.
  destruct (negb (length (validationErrors req) =? 0)%nat); [discriminate Hdata |].
  simpl in Hdata. injection Hdata as <- <-.
  set (found := Task_find env (getTasks_query user (body req)) (tasks db)).
  split; [| split].
  - intros t Hin. apply In_firstn_In, In_skipn_In in Hin.
    unfold found, Task_find in Hin. apply filter_In in Hin. destruct Hin as [Hin Hm].
    split; [exact Hin |].
    apply matches_keys in Hm. destruct Hm as (Harch & Hass & Hor).
    destruct (getTasks_query_keys user (body req)) as (Ka & Kass & Kor).
    rewrite Ka in Harch. simpl in Harch. apply Bool.eqb_prop in Harch.
    split; [exact Harch |].
    destruct (role user) eqn:Hr.
    + exact I.
    + rewrite (Kor (Hvend eq_refl)) in Hor. unfold getTasks_scope in Hor.
      rewrite Hr in Hor. simpl in Hor. rewrite orb_false_r in Hor. exact Hor.
    + rewrite (Kass (Hcust eq_refl)) in Hass. unfold getTasks_scope in Hass.
      rewrite Hr in Hass. simpl in Hass. now apply String.eqb_eq.
  - apply firstn_le_length.
  - rewrite length_firstn, length_skipn. fold found. lia.
Qed.

(** X5, checked on the customer C1 filtering by status: only T1. *)
Lemma getTasks_keeps_the_role_scope_witness :
  In T1 (tasks db0) /\ isArchived T1 = false /\ assigneeId T1 = user_id C1.
Proof.
  assert (H1 : role C1 = customer ->
               truthy_string (query_assigneeId (mkTasksQuery (Some todo) None None None None 1 50))
               = None) by reflexivity.
  assert (H2 : role C1 = vendor ->
               truthy_string (query_search (mkTasksQuery (Some todo) None None None None 1 50))
               = None) by reflexivity.
  exact (proj1 (getTasks_keeps_the_role_scope env0 db0
                  (mkReq None "" (mkTasksQuery (Some todo) None None None None 1 50)
                         [] (Some C1) false)
                  C1 [T1] 1%nat eq_refl (le_n 1) ltac:(simpl; lia) H1 H2 eq_refl)
               T1 (or_introl eq_refl)).
Defined.

Lemma count_by_status (ts : list Task) :
  length ts
  = (count_if (fun t => Status_eqb (status t) todo) ts
     + count_if (fun t => Status_eqb (status t) inprogress) ts
     + count_if (fun t => Status_eqb (status t) done) ts)%nat.
Proof.
  unfold count_if. induction ts as [| t ts IH]; [reflexivity |].
  simpl. destruct (status t); simpl; lia.
Qed.

Lemma count_by_priority (ts : list Task) :
  length ts
  = (count_if (fun t => Priority_eqb (priority t) high) ts
     + count_if (fun t => Priority_eqb (priority t) medium) ts
     + count_if (fun t => Priority_eqb (priority t) low) ts)%nat.
Proof.
  unfold count_if. induction ts as [| t ts IH]; [reflexivity |].
  simpl. destruct (priority t); simpl; lia.
Qed.

Lemma count_overdue_le (now : Date) (ts : list Task) :
  (count_if (fun t => negb (Status_eqb (status t) done) && (dueDate t <? now)%Z) ts
   <= count_if (fun t => Status_eqb (status t) todo) ts
      + count_if (fun t => Status_eqb (status t) inprogress) ts)%nat.
Proof.
  unfold count_if. induction ts as [| t ts IH]; [simpl; lia |].
  simpl. destruct (status t); simpl; destruct (dueDate t <? now); simpl; lia.
Qed.

(** X6: for a resolved actor the task statistics are consistent: the
    three status counts add up to the total, so do the three priority
    counts, the overdue count is at most the number of tasks not done,
    the total is the number of stored tasks in the actor's listing scope
    (archived tasks are not counted), which is the total an unfiltered
    listing reports, and nothing is written. *)
Theorem getTaskStats_is_consistent :
  forall (env : Env) (now : Date) (db : Db) (req : Req unit) (user : User),
    req_user req = Some user ->
    exists s,
      out_data (getTaskStats env now db req) = Some s
      /\ out_status (getTaskStats env now db req) = 200%nat
      /\ out_db (getTaskStats env now db req) = db
      /\ stats_total s = (stats_todo s + stats_inprogress s + stats_done s)%nat
      /\ stats_total s = (stats_high s + stats_medium s + stats_low s)%nat
      /\ (stats_overdue s <= stats_todo s + stats_inprogress s)%nat
      /\ stats_total s = length (Task_find env (getTasks_scope user) (tasks db))
      /\ (forall (lreq : Req TasksQuery) (ts : list Task) (total : nat),
             req_user lreq = Some user -> unfiltered (body lreq) ->
             (1 <= query_page (body lreq))%nat -> (1 <= query_limit (body lreq))%nat ->
             data (response (getTasks env db lreq)) = DataTasks ts total ->
             total = stats_total s).
Proof.
  intros env now db req user Hu.
  set (matched := Task_find env (getTasks_scope user) (tasks db)).
  exists (group_stats now matched).
  assert (Hd : out_data (getTaskStats env now db req) = Some (group_stats now matched)).
  { unfold getTaskStats. rewrite Hu. cbn [out_data].
    change (getTaskStats_matchQuery user) with (getTasks_scope user). fold matched.
    destruct matched; reflexivity. }
  split; [exact Hd |].
  split; [unfold getTaskStats; rewrite Hu; reflexivity |].
  split; [unfold getTaskStats; rewrite Hu; reflexivity |].
  cbn [group_stats stats_total stats_todo stats_inprogress stats_done stats_high
       stats_medium stats_low stats_overdue].
  split; [apply count_by_status |].
  split; [apply count_by_priority |].
  split; [apply count_overdue_le |].
  split; [reflexivity |].
  intros lreq ts total Hlu Hq _ _ Hdata. unfold getTasks in Hdata. rewrite Hlu in Hdata.
  destruct (negb (length (validationErrors lreq) =? 0)%nat); [discriminate Hdata |].
  simpl in Hdata. injection Hdata as _ <-.
  rewrite (getTasks_query_unfiltered user (body lreq) Hq). reflexivity.
Qed.

(** X6, checked on the vendor V1: T1 and T4 are counted, the archived T3
    and the foreign T2 are not. *)
Lemma getTaskStats_is_consistent_witness :
  exists s, out_data (getTaskStats env0 2000 db0 (mkReq None "" tt [] (Some V1) false)) = Some s
            /\ stats_total s = 2%nat.
Proof.
  destruct (getTaskStats_is_consistent env0 2000 db0 (mkReq None "" tt [] (Some V1) false)
              V1 eq_refl) as (s & Hd & _ & _ & _ & _ & _ & Ht & _).
  exists s. split; [exact Hd | rewrite Ht; reflexivity].
Defined.

Lemma insert_by_dueDate_perm (t : Task) (l : list Task) :
  Permutation (insert_by_dueDate t l) (t :: l).
Proof.
  induction l as [| x l IH]; simpl; [apply Permutation_refl |].
  destruct (dueDate t <=? dueDate x); [apply Permutation_refl |].
  apply perm_trans with (x :: t :: l); [now apply perm_skip | apply perm_swap].
Qed.

Lemma sort_by_dueDate_perm (l : list Task) : Permutation (sort_by_dueDate l) l.
Proof.
  induction l as [| t l IH]; simpl; [apply perm_nil |].
  apply perm_trans with (t :: sort_by_dueDate l);
    [apply insert_by_dueDate_perm | now apply perm_skip].
Qed.

Lemma insert_by_dueDate_sorted (t : Task) (l : list Task) :
  due_ascending l -> due_ascending (insert_by_dueDate t l).
Proof.
  unfold due_ascending. induction l as [| x l IH]; intro Hs; simpl.
  - constructor; constructor.
  - destruct (dueDate t <=? dueDate x) eqn:E.
    + apply Z.leb_le in E. constructor; [exact Hs |].
      constructor; [exact E |].
      apply StronglySorted_inv in Hs. destruct Hs as [_ Hall].
      eapply Forall_impl; [| exact Hall]. intros y Hy. simpl in Hy. lia.
    + apply Z.leb_gt in E. apply StronglySorted_inv in Hs. destruct Hs as [Hs Hall].
      constructor; [now apply IH |].
      eapply Permutation_Forall;
        [apply Permutation_sym, insert_by_dueDate_perm |].
      constructor; [lia | exact Hall].
Qed.

Lemma sort_by_dueDate_sorted (l : list Task) : due_ascending (sort_by_dueDate l).
Proof.
  induction l as [| t l IH]; simpl; [constructor | now apply insert_by_dueDate_sorted].
Qed.

(** X7: for a resolved actor the overdue listing is in ascending order of
    due date and holds exactly the stored tasks that are not archived,
    for which the isOverdue virtual is true at that moment, and that lie
    in the actor's role scope (all for an administrator, assigned or
    created for a vendor, assigned for a customer), each as often as it
    is stored. *)
Theorem getOverdueTasks_sorted_and_exact :
  forall (now : Date) (db : Db) (req : Req unit) (user : User),
    req_user req = Some user ->
    exists ts,
      out_data (getOverdueTasks now db req) = Some ts
      /\ due_ascending ts
      /\ Permutation ts (filter (getOverdueTasks_matches now user) (tasks db))
      /\ (forall t,
             In t ts <->
             In t (tasks db) /\ isOverdue now t = true /\ isArchived t = false
             /\ match role user with
                | admin => True
                | vendor => owned user t = true
                | customer => assigneeId t = user_id user
                end).
Proof.
  intros now db req user Hu.
  exists (sort_by_dueDate (filter (getOverdueTasks_matches now user) (tasks db))).
  split; [unfold getOverdueTasks; rewrite Hu; reflexivity |].
  split; [apply sort_by_dueDate_sorted |].
  split; [apply sort_by_dueDate_perm |].
  intro t.
  assert (Hp : In t (sort_by_dueDate (filter (getOverdueTasks_matches now user) (tasks db)))
               <-> In t (filter (getOverdueTasks_matches now user) (tasks db))).
  { split; apply Permutation_in;
      [apply sort_by_dueDate_perm | apply Permutation_sym, sort_by_dueDate_perm]. }
  rewrite Hp, filter_In. unfold getOverdueTasks_matches, isOverdue, owned.
  destruct (role user); simpl;
    rewrite ?andb_true_iff, ?andb_true_r, ?Bool.eqb_true_iff, ?String.eqb_eq; tauto.
Qed.

(** X7, checked on the administrator at a time when every open task is
    past its due date: T1, T2, T4 in that order. *)
Lemma getOverdueTasks_sorted_and_exact_witness :
  exists ts, out_data (getOverdueTasks 8000 db0 (mkReq None "" tt [] (Some A1) false)) = Some ts
             /\ due_ascending ts /\ In T2 ts.
Proof.
  destruct (getOverdueTasks_sorted_and_exact 8000 db0 (mkReq None "" tt [] (Some A1) false)
              A1 eq_refl) as (ts & Hd & Hs & _ & Hin).
  exists ts. split; [exact Hd | split; [exact Hs |]].
  apply Hin. repeat split. right. left. reflexivity.
Defined.

(* ===================================================================== *)
(** ** Further properties: task mutations                                 *)
(* ===================================================================== *)









Lemma existsb_eqb_In (x : string) (l : list string) :
  existsb (String.eqb x) l = true <-> In x l.
Proof.
  rewrite existsb_exists. split.
  - intros (y & Hin & E). apply String.eqb_eq in E. now subst.
  - intro Hin. exists x. split; [exact Hin | apply String.eqb_refl].
Qed.







(* ===================================================================== *)
(** ** Further properties: references between the collections             *)
(* ===================================================================== *)






Lemma User_findById_filter_out (id x : ObjectId) (us : list User) :
  User_findById (Some id) (filter (fun u => negb (String.eqb (user_id u) x)) us)
  = if String.eqb id x then None else User_findById (Some id) us.
Proof.
  simpl. induction us as [| u us IH]; simpl.
  - destruct (String.eqb id x); reflexivity.
  - destruct (String.eqb (user_id u) x) eqn:Ex; simpl.
    + rewrite IH. destruct (String.eqb id x) eqn:Ei; [reflexivity |].
      destruct (String.eqb (user_id u) id) eqn:Eu; [| reflexivity].
      apply String.eqb_eq in Ex, Eu. apply String.eqb_neq in Ei. congruence.
    + destruct (String.eqb (user_id u) id) eqn:Eu.
      * destruct (String.eqb id x) eqn:Ei; [| reflexivity].
        apply String.eqb_eq in Ei, Eu. apply String.eqb_neq in Ex. congruence.
      * exact IH.
Qed.

Lemma filter_nil_forall {A} (p : A -> bool) (l : list A) :
  length (filter p l) = 0%nat -> forall x, In x l -> p x = false.
Proof.
  induction l as [| a l IH]; simpl; [contradiction |].
  destruct (p a) eqn:E; simpl; [discriminate |].
  intros H x [<- | Hin]; [exact E | now apply IH].
Qed.

(** X13: the user deletion handler refuses (400, nothing written) while
    a task that is not archived is assigned to the user; when it does
    delete (200), the user can no longer be found, the tasks are
    untouched, and every task that is not archived still has an assignee
    that resolves, if that was so before. *)
Theorem deleteUser_keeps_open_assignees :
  forall (db : Db) (req : Req unit),
    let r := deleteUser db req in
    (forall user t,
        User_findById (Some (params_id req)) (users db) = Some user ->
        In t (tasks db) -> isArchived t = false -> assigneeId t = params_id req ->
        statusCode (response r) = 400%nat /\ db_after r = db)
    /\ (statusCode (response r) = 200%nat ->
        User_findById (Some (params_id req)) (users (db_after r)) = None
        /\ tasks (db_after r) = tasks db
        /\ (forall id, id <> params_id req ->
                       User_findById (Some id) (users (db_after r))
                       = User_findById (Some id) (users db)))
    /\ (open_assignees_resolve db -> open_assignees_resolve (db_after r)).
Proof.
  intros db req r. unfold r, deleteUser.
  destruct (User_findById (Some (params_id req)) (users db)) as [user |] eqn:Hu.
  2: { split; [intros user t H; discriminate H |].
       split; [intro H; discriminate H | intro H; exact H]. }
  set (assigned := length (filter (fun t => String.eqb (assigneeId t) (params_id req)
                                            && negb (isArchived t)) (tasks db))).
  destruct (0 <? assigned)%nat eqn:E.
  - split; [intros; split; reflexivity |].
    split; [intro H; discriminate H | intro H; exact H].
  - apply Nat.ltb_ge in E. assert (E0 : assigned = 0%nat) by lia.
    pose proof (filter_nil_forall _ _ E0) as Hnone. cbv beta in Hnone.
    split; [| split].
    + intros user' t _ Hin Harch Ha. exfalso.
      specialize (Hnone t Hin). rewrite Ha, String.eqb_refl, Harch in Hnone.
      discriminate Hnone.
    + intros _. cbn [db_after users tasks].
      split; [rewrite User_findById_filter_out, String.eqb_refl; reflexivity |].
      split; [reflexivity |].
      intros id Hid. rewrite User_findById_filter_out.
      apply String.eqb_neq in Hid. rewrite Hid. reflexivity.
    + intros Hinv t Hin Harch. cbn [db_after users tasks] in *.
      rewrite User_findById_filter_out.
      specialize (Hnone t Hin). rewrite Harch, andb_true_r in Hnone.
      rewrite Hnone. now apply Hinv.
Qed.

(** X13, checked on C1, to whom the open tasks T1 and T4 are assigned. *)
Lemma deleteUser_keeps_open_assignees_witness :
  statusCode (response (deleteUser db0 (mkReq None "C1" tt [] None false))) = 400%nat
  /\ db_after (deleteUser db0 (mkReq None "C1" tt [] None false)) = db0.
Proof.
  apply (proj1 (deleteUser_keeps_open_assignees db0 (mkReq None "C1" tt [] None false))
           C1 T1 eq_refl).
  - left. reflexivity.
  - reflexivity.
  - reflexivity.
Defined.

(* ===================================================================== *)
(** ** Further properties: accounts and sessions                          *)
(* ===================================================================== *)

Lemma User_findById_replace (id : ObjectId) (us : list User) (u u' : User) :
  User_findById (Some id) us = Some u -> user_id u' = id ->
  User_findById (Some id) (User_replace u' us) = Some u'.
Proof.
  simpl. unfold User_replace. intros H Hid. subst id.
  induction us as [| x us IH]; simpl in *; [discriminate |].
  destruct (String.eqb (user_id x) (user_id u')) eqn:E.
  - simpl. rewrite String.eqb_refl. reflexivity.
  - simpl. rewrite E. apply IH. exact H.
Qed.

Lemma User_findById_replace_other (id : ObjectId) (us : list User) (u' : User) :
  id <> user_id u' ->
  User_findById (Some id) (User_replace u' us) = User_findById (Some id) us.
Proof.
  simpl. unfold User_replace. intro Hne.
  induction us as [| x us IH]; simpl; [reflexivity |].
  destruct (String.eqb (user_id x) (user_id u')) eqn:E.
  - apply String.eqb_eq in E. simpl.
    assert (E1 : String.eqb (user_id u') id = false)
      by (apply String.eqb_neq; congruence).
    assert (E2 : String.eqb (user_id x) id = false)
      by (apply String.eqb_neq; congruence).
    rewrite E1, E2. exact IH.
  - simpl. destruct (String.eqb (user_id x) id); [reflexivity | exact IH].
Qed.

Lemma User_findByEmail_replace (e : string) (us : list User) (u u' : User) :
  User_findByEmail e us = Some u -> email u' = e -> user_id u' = user_id u ->
  User_findByEmail e (User_replace u' us) = Some u'.
Proof.
  unfold User_findByEmail, User_replace. intros H He Hid.
  induction us as [| x us IH]; simpl in *; [discriminate |].
  destruct (String.eqb (email x) e) eqn:Ex.
  - injection H as ->. rewrite Hid, String.eqb_refl. simpl.
    rewrite He, String.eqb_refl. reflexivity.
  - destruct (String.eqb (user_id x) (user_id u')); simpl.
    + rewrite He, String.eqb_refl. reflexivity.
    + rewrite Ex. apply IH. exact H.
Qed.



(** [protect] lets a request through when its token is signed with the
    secret, has not expired and names, under "userId", an active user. *)
Lemma protect_accepts {B} (env : Env) (now : Date) (db : Db) (req : Req B)
    (claims : Payload) (exp : option Z) (u : User) :
  headers_authorization req = bearer (Signed claims (JWT_SECRET env) exp) ->
  (forall e, exp = Some e -> now / 1000 < e) ->
  User_findById (payload_userId claims) (users db) = Some u ->
  isActive u = true ->
  protect env now db req = Next (with_user u req).
Proof.
  intros Hh Hexp Hu Ha. unfold protect. rewrite Hh. simpl.
  rewrite String.eqb_refl.
  destruct exp as [e |].
  - specialize (Hexp e eq_refl). apply Z.leb_gt in Hexp. rewrite Hexp, Hu, Ha. reflexivity.
  - rewrite Hu, Ha. reflexivity.
Qed.

(** What a successful login does. *)
Lemma login_succeeds (env : Env) (now : Date) (db : Db) (req : Req LoginBody) (user : User) :
  validationErrors req = [] ->
  User_findByEmail (login_email (body req)) (users db) = Some user ->
  isActive user = true ->
  bcrypt_compare env (login_password (body req)) (password user) = true ->
  login env now db req
  = mkResult
      (mkResponse 200 true "Login successful"
         (DataToken (login_token env (user_id user))
            (mkUser (user_id user) (name user) (email user) (password user)
                    (role user) (isActive user) (Some now))))
      (mkDb (User_replace
               (mkUser (user_id user) (name user) (email user) (password user)
                       (role user) (isActive user) (Some now))
               (users db))
            (tasks db))
      [].
Proof.
  intros Hv Hu Ha Hc. unfold login. rewrite Hv, Hu, Ha, Hc. reflexivity.
Qed.

(** X14: logging in and then using the token.  For a valid request with
    the email of an active user and a password bcrypt accepts, the
    answer is 200 with a token; the user's lastLogin is the time of the
    login and the tasks are untouched; and that token, sent as Bearer
    token at any later time, is accepted by [protect], which attaches
    the user as updated: the token never expires. *)
Theorem login_token_opens_the_REST_interface :
  forall (env : Env) (now : Date) (db : Db) (req : Req LoginBody) (user : User),
    validationErrors req = [] ->
    User_findByEmail (login_email (body req)) (users db) = Some user ->
    isActive user = true ->
    bcrypt_compare env (login_password (body req)) (password user) = true ->
    User_findById (Some (user_id user)) (users db) = Some user ->
    let r := login env now db req in
    exists tok u',
      response r = mkResponse 200 true "Login successful" (DataToken tok u')
      /\ user_id u' = user_id user /\ role u' = role user /\ lastLogin u' = Some now
      /\ tasks (db_after r) = tasks db
      /\ forall (B : Type) (req' : Req B) (later : Date),
           headers_authorization req' = bearer tok ->
           protect env later (db_after r) req' = Next (with_user u' req').
Proof.
  intros env now db req user Hv Hu Ha Hc Hid r.
  unfold r. rewrite (login_succeeds env now db req user Hv Hu Ha Hc).
  eexists. eexists. cbn [response db_after tasks users].
  split; [reflexivity |]. repeat (split; [reflexivity |]).
  intros B req' later Hh.
  apply (protect_accepts env later _ req' (mkPayload None (Some (user_id user))) None).
  - exact Hh.
  - intros e He. discriminate He.
  - cbn [payload_userId users]. now apply User_findById_replace with (u := user).
  - exact Ha.
Qed.

(** X14, checked on the login of the customer C1. *)
Lemma login_token_opens_the_REST_interface_witness :
  exists tok u',
    data (response (login env0 1000 db0
                      (mkReq None "" (mkLoginBody "cyd@example.com" "pw-c") [] None false)))
    = DataToken tok u'
    /\ lastLogin u' = Some 1000.
Proof.
  destruct (login_token_opens_the_REST_interface env0 1000 db0
              (mkReq None "" (mkLoginBody "cyd@example.com" "pw-c") [] None false) C1
              eq_refl eq_refl eq_refl eq_refl eq_refl)
    as (tok & u' & Hr & _ & _ & Hl & _).
  exists tok, u'. split; [| exact Hl].
  cbv zeta in Hr. rewrite Hr. reflexivity.
Defined.

(** X15: what a failed login shows and does.  After validation, an
    unknown email and a wrong password for an active user get the very
    same answer, while a deactivated account is reported as such before
    the password is looked at; and whenever the answer is not 200 the
    database is as before, so lastLogin only moves on success. *)
Theorem login_failures :
  forall (env : Env) (now : Date) (db : Db) (req : Req LoginBody),
    validationErrors req = [] ->
    let r := login env now db req in
    (User_findByEmail (login_email (body req)) (users db) = None ->
     response r = invalidCredentials)
    /\ (forall user,
          User_findByEmail (login_email (body req)) (users db) = Some user ->
          isActive user = true ->
          bcrypt_compare env (login_password (body req)) (password user) = false ->
          response r = invalidCredentials)
    /\ (forall user,
          User_findByEmail (login_email (body req)) (users db) = Some user ->
          isActive user = false ->
          response r = mkResponse 401 false
                         "Account is deactivated. Please contact administrator." NoData)
    /\ (statusCode (response r) <> 200%nat -> db_after r = db /\ emitted r = []).
Proof.
  intros env now db req Hv r. unfold r, login. rewrite Hv. simpl.
  split; [intros ->; reflexivity |].
  split; [intros user -> -> ->; reflexivity |].
  split; [intros user -> ->; reflexivity |].
  destruct (User_findByEmail (login_email (body req)) (users db)) as [user |];
    [| intros _; split; reflexivity].
  destruct (isActive user); simpl; [| intros _; split; reflexivity].
  destruct (bcrypt_compare env (login_password (body req)) (password user)); simpl;
    [| intros _; split; reflexivity].
  intro H. now elim H.
Qed.

(** X15, checked on a wrong password for C1. *)
Lemma login_failures_witness :
  response (login env0 1000 db0
              (mkReq None "" (mkLoginBody "cyd@example.com" "guess") [] None false))
  = invalidCredentials.
Proof.
  exact (proj1 (proj2 (login_failures env0 1000 db0
                         (mkReq None "" (mkLoginBody "cyd@example.com" "guess") [] None false)
                         eq_refl))
               C1 eq_refl eq_refl eq_refl).
Defined.


Lemma User_findByEmail_None (e : string) (us : list User) :
  User_findByEmail e us = None -> ~ In e (map email us).
Proof.
  unfold User_findByEmail. intros H Hin. apply in_map_iff in Hin.
  destruct Hin as (u & He & Hin).
  pose proof (find_none _ _ H u Hin) as Hn. cbv beta in Hn.
  rewrite He, String.eqb_refl in Hn. discriminate Hn.
Qed.

(** X16: registration keeps emails unique.  A valid request with an
    email that is already stored is answered 400 and nothing is written;
    a registration that is answered 201 appends exactly one user, active,
    with the role the body names or customer, and with the hash rather
    than the password; and if no two stored users shared an email
    before, none do afterwards. *)
Theorem register_keeps_emails_unique :
  forall (env : Env) (now : Date) (newId : ObjectId) (hashed : string)
         (db : Db) (req : Req RegisterBody),
    let r := register env now newId hashed db req in
    (forall u, validationErrors req = [] ->
               User_findByEmail (register_email (body req)) (users db) = Some u ->
               statusCode (response r) = 400%nat /\ db_after r = db)
    /\ (statusCode (response r) = 201%nat ->
        exists user,
          users (db_after r) = users db ++ [user]
          /\ tasks (db_after r) = tasks db
          /\ user_id user = newId
          /\ email user = register_email (body req)
          /\ role user = or_keep (register_role (body req)) customer
          /\ isActive user = true
          /\ password user = hashed)
    /\ (NoDup (map email (users db)) -> NoDup (map email (users (db_after r)))).
Proof.
  intros env now newId hashed db req r. unfold r.
  split; [| split].
  - intros u Hv Hu. unfold register. rewrite Hv, Hu. split; reflexivity.
  - unfold register.
    destruct (negb (length (validationErrors req) =? 0)%nat); [discriminate |].
    destruct (User_findByEmail (register_email (body req)) (users db)); [discriminate |].
    intros _. eexists. cbn [db_after users tasks].
    split; [reflexivity |]. repeat split.
  - intro Hnd. unfold register.
    destruct (negb (length (validationErrors req) =? 0)%nat); [exact Hnd |].
    destruct (User_findByEmail (register_email (body req)) (users db)) eqn:He;
      [exact Hnd |].
    cbn [db_after users]. rewrite map_app. simpl.
    apply Permutation_NoDup with (l := register_email (body req) :: map email (users db)).
    + apply Permutation_cons_append.
    + constructor; [now apply User_findByEmail_None | exact Hnd].
Qed.

(** X16, checked on a second registration with C1's email. *)
Lemma register_keeps_emails_unique_witness :
  statusCode (response (register env0 2000 "U9" "hash" db0
                          (mkReq None "" (mkRegisterBody "Imp" "cyd@example.com" "secret1" None)
                                 [] None false))) = 400%nat.
Proof.
  exact (proj1 (proj1 (register_keeps_emails_unique env0 2000 "U9" "hash" db0
                         (mkReq None "" (mkRegisterBody "Imp" "cyd@example.com" "secret1" None)
                                [] None false))
                      C1 eq_refl eq_refl)).
Defined.







(** X19: changing the password.  For a valid request of a resolved,
    stored actor: when bcrypt rejects the current password the answer is
    400 and nothing is written; otherwise the answer is 200 and the
    stored password becomes the new hash (role, email, name and the
    active flag stay), after which a login with the new password
    succeeds if it matches that hash and a login with any password that
    does not match it is answered 401. *)
Theorem changePassword_round_trip :
  forall (env : Env) (hashed : string) (now : Date) (db : Db)
         (req : Req PasswordBody) (me user : User),
    validationErrors req = [] ->
    req_user req = Some me ->
    User_findById (Some (user_id me)) (users db) = Some user ->
    let r := changePassword env hashed db req in
    (bcrypt_compare env (currentPassword (body req)) (password user) = false ->
     out_status r = 400%nat /\ out_db r = db)
    /\ (bcrypt_compare env (currentPassword (body req)) (password user) = true ->
        newPassword (body req) <> password user ->
        out_status r = 200%nat
        /\ tasks (out_db r) = tasks db
        /\ (exists user',
              User_findById (Some (user_id me)) (users (out_db r)) = Some user'
              /\ password user' = hashed /\ role user' = role user
              /\ email user' = email user /\ name user' = name user
              /\ isActive user' = isActive user)
        /\ (forall lreq : Req LoginBody,
              validationErrors lreq = [] ->
              login_email (body lreq) = email user ->
              User_findByEmail (email user) (users db) = Some user ->
              isActive user = true ->
              (bcrypt_compare env (login_password (body lreq)) hashed = true ->
               statusCode (response (login env now (out_db r) lreq)) = 200%nat)
              /\ (bcrypt_compare env (login_password (body lreq)) hashed = false ->
                  response (login env now (out_db r) lreq) = invalidCredentials))).
Proof.
  intros env hashed now db req me user Hv Hme Hu r. unfold r, changePassword.
  rewrite Hv, Hme, Hu. cbn [negb Nat.eqb length].
  split.
  - intros ->. split; reflexivity.
  - intros -> Hne. apply String.eqb_neq in Hne. rewrite Hne.
    cbn [negb out_status out_db tasks users].
    set (user' := mkUser (user_id user) (name user) (email user) hashed (role user)
                         (isActive user) (lastLogin user)).
    pose proof (User_findById_Some _ _ _ Hu) as [_ Hid].
    split; [reflexivity |]. split; [reflexivity |]. split.
    + exists user'. split; [| repeat split].
      apply User_findById_replace with (u := user); [exact Hu | exact Hid].
    + intros lreq Hvl Hle Hfe Hact.
      assert (Hfe' : User_findByEmail (login_email (body lreq))
                       (User_replace user' (users db)) = Some user').
      { rewrite Hle. apply User_findByEmail_replace with (u := user);
          [exact Hfe | reflexivity | reflexivity]. }
      split; intro Hc.
      * rewrite (login_succeeds env now
                   (mkDb (User_replace user' (users db)) (tasks db))
                   lreq user' Hvl Hfe' Hact Hc).
        reflexivity.
      * unfold login. rewrite Hvl. cbn [negb Nat.eqb length users].
        rewrite Hfe'. cbn [isActive user' password]. rewrite Hact, Hc. reflexivity.
Qed.

(** X19, checked on C1 changing the password from pw-c to a new one. *)
Lemma changePassword_round_trip_witness :
  let r := changePassword env0 "n3w-pass" db0
             (mkReq None "" (mkPasswordBody "pw-c" "n3w-pass") [] (Some C1) false) in
  out_status r = 200%nat
  /\ statusCode (response (login env0 3000 (out_db r)
                             (mkReq None "" (mkLoginBody "cyd@example.com" "n3w-pass")
                                    [] None false))) = 200%nat
  /\ response (login env0 3000 (out_db r)
                 (mkReq None "" (mkLoginBody "cyd@example.com" "pw-c") [] None false))
     = invalidCredentials.
Proof.
  cbv zeta.
  assert (Hne : newPassword (mkPasswordBody "pw-c" "n3w-pass") <> password C1)
    by discriminate.
  destruct (proj2 (changePassword_round_trip env0 "n3w-pass" 3000 db0
                     (mkReq None "" (mkPasswordBody "pw-c" "n3w-pass") [] (Some C1) false)
                     C1 C1 eq_refl eq_refl eq_refl) eq_refl Hne)
    as (Hs & _ & _ & Hlogin).
  split; [exact Hs | split].
  - exact (proj1 (Hlogin (mkReq None "" (mkLoginBody "cyd@example.com" "n3w-pass")
                                [] None false) eq_refl eq_refl eq_refl eq_refl) eq_refl).
  - exact (proj2 (Hlogin (mkReq None "" (mkLoginBody "cyd@example.com" "pw-c")
                                [] None false) eq_refl eq_refl eq_refl eq_refl) eq_refl).
Defined.

(** X20: the profile update cannot touch what it is not meant to touch.
    Whatever the request, every stored user is found afterwards under
    the same id with the same role, active flag and password, any user
    other than the actor is unchanged, and the tasks are untouched; a
    valid request whose email is stored for another user is answered 400
    with nothing written. *)
Theorem updateProfile_keeps_role_and_password :
  forall (db : Db) (req : Req ProfileBody),
    let r := updateProfile db req in
    tasks (out_db r) = tasks db
    /\ (forall id u,
          User_findById (Some id) (users db) = Some u ->
          exists u',
            User_findById (Some id) (users (out_db r)) = Some u'
            /\ role u' = role u /\ isActive u' = isActive u /\ password u' = password u
            /\ (forall me, req_user req = Some me -> id <> user_id me -> u' = u))
    /\ (forall me e other,
          validationErrors req = [] -> req_user req = Some me ->
          truthy_string (profile_email (body req)) = Some e ->
          In other (users db) -> email other = toLowerCase e ->
          user_id other <> user_id me ->
          out_status r = 400%nat /\ out_db r = db).
Proof.
  intros db req r. unfold r, updateProfile.
  destruct (negb (length (validationErrors req) =? 0)%nat) eqn:Ev.
  { split; [reflexivity |]. split.
    - intros id u Hu. exists u. repeat split; try reflexivity; exact Hu.
    - intros me e other Hv. rewrite Hv in Ev. discriminate Ev. }
  destruct (req_user req) as [me |] eqn:Hme.
  2: { split; [reflexivity |]. split.
       - intros id u Hu. exists u. repeat split; try reflexivity; exact Hu.
       - intros me e other _ H. discriminate H. }
  set (taken := match truthy_string (profile_email (body req)) with
                | Some e => existsb (fun u => String.eqb (email u) (toLowerCase e)
                                              && negb (String.eqb (user_id u) (user_id me)))
                                    (users db)
                | None => false
                end).
  destruct taken eqn:Et.
  { split; [reflexivity |]. split.
    - intros id u Hu. exists u. repeat split; try reflexivity; exact Hu.
    - intros; split; reflexivity. }
  assert (Hno : forall e other,
             truthy_string (profile_email (body req)) = Some e ->
             In other (users db) -> email other = toLowerCase e ->
             user_id other <> user_id me -> False).
  { intros e other He Hin Hem Hne. unfold taken in Et. rewrite He in Et.
    assert (Hex : existsb (fun u => String.eqb (email u) (toLowerCase e)
                                    && negb (String.eqb (user_id u) (user_id me)))
                          (users db) = true).
    { apply existsb_exists. exists other. split; [exact Hin |].
      rewrite Hem, String.eqb_refl. apply String.eqb_neq in Hne. now rewrite Hne. }
    rewrite Hex in Et. discriminate Et. }
  destruct (User_findById (Some (user_id me)) (users db)) as [stored |] eqn:Hs.
  2: { split; [reflexivity |]. split.
       - intros id u Hu. exists u. repeat split; try reflexivity; exact Hu.
       - intros me' e other _ Hme' He Hin Hem Hne. exfalso.
         injection Hme' as <-. exact (Hno e other He Hin Hem Hne). }
  cbn [out_db out_status tasks users].
  split; [reflexivity |]. split.
  - intros id u Hu.
    pose proof (User_findById_Some _ _ _ Hs) as [_ Hsid].
    destruct (String.eqb id (user_id me)) eqn:E.
    + apply String.eqb_eq in E. subst id. rewrite Hs in Hu. injection Hu as <-.
      eexists. split.
      * apply User_findById_replace with (u := stored); [exact Hs | exact Hsid].
      * repeat split. intros me' Hme' Hne. injection Hme' as <-. now elim Hne.
    + apply String.eqb_neq in E. exists u. split.
      * rewrite User_findById_replace_other; [exact Hu |]. cbn [user_id]. congruence.
      * repeat split.
  - intros me' e other _ Hme' He Hin Hem Hne. exfalso.
    injection Hme' as <-. exact (Hno e other He Hin Hem Hne).
Qed.

(** X20, checked on C2 asking for the email of C1. *)
Lemma updateProfile_keeps_role_and_password_witness :
  out_status (updateProfile db0
                (mkReq None "" (mkProfileBody None (Some "Cyd@Example.com"))
                       [] (Some C2) false)) = 400%nat.
Proof.
  assert (Hin : In C1 (users db0)) by (right; right; left; reflexivity).
  assert (Hne : user_id C1 <> user_id C2) by discriminate.
  exact (proj1 (proj2 (proj2 (updateProfile_keeps_role_and_password db0
                  (mkReq None "" (mkProfileBody None (Some "Cyd@Example.com"))
                         [] (Some C2) false)))
               C2 "Cyd@Example.com" C1 eq_refl eq_refl eq_refl Hin eq_refl Hne)).
Defined.

(* ===================================================================== *)
(** ** Further properties: the socket registry                            *)
(* ===================================================================== *)

Lemma eqb_app_l (p a b : string) :
  String.eqb (p ++ a)%string (p ++ b)%string = String.eqb a b.
Proof.
  induction p as [| c p IH]; simpl; [reflexivity |].
  rewrite Ascii.eqb_refl. exact IH.
Qed.

Lemma prefix_app (p x : string) : String.prefix p (p ++ x)%string = true.
Proof.
  induction p as [| c p IH]; simpl; [destruct x; reflexivity |].
  destruct (ascii_dec c c) as [_ | E]; [exact IH | now elim E].
Qed.

(** A room whose name starts with "task_" is neither a personal room nor
    a role room. *)
Lemma task_room_not_user (r x : string) :
  String.prefix "task_" r = true -> String.eqb ("user_" ++ x)%string r = false.
Proof.
  destruct r as [| c r]; [reflexivity |].
  change (String.prefix "task_" (String c r))
    with (if ascii_dec "t" c then String.prefix "ask_" r else false).
  destruct (ascii_dec "t" c) as [<- | _]; [intros _; reflexivity | intro H; discriminate H].
Qed.

Lemma task_room_not_role (r x : string) :
  String.prefix "task_" r = true -> String.eqb ("role_" ++ x)%string r = false.
Proof.
  destruct r as [| c r]; [reflexivity |].
  change (String.prefix "task_" (String c r))
    with (if ascii_dec "t" c then String.prefix "ask_" r else false).
  destruct (ascii_dec "t" c) as [<- | _]; [intros _; reflexivity | intro H; discriminate H].
Qed.

Lemma Role_name_eqb (a b : Role) :
  String.eqb (Role_name a) (Role_name b) = Role_eqb a b.
Proof. destruct a, b; reflexivity. Qed.

Lemma existsb_all_false {A} (p : A -> bool) (l : list A) :
  Forall (fun x => p x = false) l -> existsb p l = false.
Proof.
  induction 1 as [| x l Hx _ IH]; simpl; [reflexivity | now rewrite Hx, IH].
Qed.

(** What the shape of the rooms says about membership. *)
Lemma enrolled_user_room (s : Socket) (id : string) :
  enrolled s ->
  in_room ("user_" ++ id)%string s = String.eqb id (user_id (socket_user s)).
Proof.
  intros (joined & Hr & Hj). unfold in_room. rewrite Hr. cbn [existsb].
  rewrite eqb_app_l.
  replace (String.eqb ("user_" ++ id)%string
             ("role_" ++ Role_name (role (socket_user s)))%string) with false
    by reflexivity.
  rewrite (existsb_all_false _ joined).
  - now rewrite !orb_false_r.
  - eapply Forall_impl; [| exact Hj]. intros r. apply task_room_not_user.
Qed.

Lemma enrolled_role_room (s : Socket) (r : Role) :
  enrolled s ->
  in_room ("role_" ++ Role_name r)%string s = Role_eqb r (role (socket_user s)).
Proof.
  intros (joined & Hr & Hj). unfold in_room. rewrite Hr. cbn [existsb].
  rewrite eqb_app_l, Role_name_eqb.
  replace (String.eqb ("role_" ++ Role_name r)%string
             ("user_" ++ user_id (socket_user s))%string) with false
    by reflexivity.
  rewrite (existsb_all_false _ joined).
  - now rewrite orb_false_r.
  - eapply Forall_impl; [| exact Hj]. intros x. apply task_room_not_role.
Qed.

Lemma update_rooms_enrolled (sid : nat) (f : list string -> list string)
    (conns : list Socket) :
  (forall s, enrolled s ->
             enrolled (mkSocket (socket_id s) (socket_user s) (f (rooms s)))) ->
  Forall enrolled conns -> Forall enrolled (update_rooms sid f conns).
Proof.
  intros Hf Hc. unfold update_rooms. apply Forall_forall. intros s Hin.
  apply in_map_iff in Hin. destruct Hin as (s0 & E & Hin0).
  rewrite Forall_forall in Hc. specialize (Hc s0 Hin0).
  destruct (Nat.eqb (socket_id s0) sid); subst s; [now apply Hf | exact Hc].
Qed.

Lemma act_enrolled (a : Action) (conns : list Socket) :
  Forall enrolled conns -> Forall enrolled (act a conns).
Proof.
  intro Hc. destruct a as [sid user | sid taskId | sid taskId]; simpl.
  - unfold on_connection. apply Forall_app. split; [exact Hc |].
    constructor; [| constructor]. exists []. split; [reflexivity | constructor].
  - unfold on_joinTask. apply update_rooms_enrolled; [| exact Hc].
    intros s (joined & Hr & Hj).
    destruct (existsb (String.eqb ("task_" ++ taskId)%string) (rooms s)).
    + exists joined. split; [exact Hr | exact Hj].
    + exists (joined ++ [("task_" ++ taskId)%string]). cbn [rooms socket_user].
      split; [rewrite Hr; reflexivity |].
      apply Forall_app. split; [exact Hj |].
      constructor; [apply (prefix_app "task_") | constructor].
  - unfold on_leaveTask. apply update_rooms_enrolled; [| exact Hc].
    intros s (joined & Hr & Hj).
    exists (filter (fun r => negb (String.eqb ("task_" ++ taskId)%string r)) joined).
    cbn [rooms socket_user]. split.
    + rewrite Hr. reflexivity.
    + apply Forall_forall. intros r Hin. apply filter_In in Hin.
      rewrite Forall_forall in Hj. apply Hj. exact (proj1 Hin).
Qed.

Lemma registry_enrolled (history : list Action) : Forall enrolled (registry history).
Proof.
  unfold registry.
  assert (H : forall conns, Forall enrolled conns ->
                            Forall enrolled (fold_left (fun c a => act a c) history conns)).
  { induction history as [| a history IH]; intros conns Hc; simpl; [exact Hc |].
    apply IH. now apply act_enrolled. }
  apply H. constructor.
Qed.

(** Membership in personal and role rooms, for the connections of any
    registry. *)
Lemma registry_memberships_aux (history : list Action) (s : Socket) :
  In s (registry history) ->
  (forall id, in_room ("user_" ++ id)%string s = true <-> user_id (socket_user s) = id)
  /\ (forall r, in_room ("role_" ++ Role_name r)%string s = true
                <-> role (socket_user s) = r).
Proof.
  intro Hin.
  pose proof (registry_enrolled history) as He. rewrite Forall_forall in He.
  specialize (He s Hin). split.
  - intro id. rewrite (enrolled_user_room s id He), String.eqb_eq.
    split; intro H; now symmetry.
  - intro r. rewrite (enrolled_role_room s r He), Role_eqb_eq.
    split; intro H; now symmetry.
Qed.

(** X21: personal and role rooms are fixed by the connection's user.
    After any history of connects, joins and leaves, a connection is in
    the personal room of a user id exactly when that is its user's id,
    and in the room of a role exactly when that is its user's role: no
    client message enrols a connection in a foreign personal or role
    room, and none takes it out of its own. *)
Theorem registry_memberships :
  forall (history : list Action) (s : Socket),
    In s (registry history) ->
    (forall id, in_room ("user_" ++ id)%string s = true <-> user_id (socket_user s) = id)
    /\ (forall r, in_room ("role_" ++ Role_name r)%string s = true
                  <-> role (socket_user s) = r).
Proof.
  intros history s Hin.
  pose proof (registry_enrolled history) as He. rewrite Forall_forall in He.
  specialize (He s Hin). split.
  - intro id. rewrite (enrolled_user_room s id He), String.eqb_eq.
    split; intro H; now symmetry.
  - intro r. rewrite (enrolled_role_room s r He), Role_eqb_eq.
    split; intro H; now symmetry.
Qed.

(** X21, checked on a customer who joins a task room and tries to leave
    rooms that are not task rooms. *)
Lemma registry_memberships_witness :
  let history := [connect 7 C2; joinTask 7 "T1"; leaveTask 7 "role_customer";
                  joinTask 7 "role_admin"] in
  exists s, In s (registry history)
            /\ in_room "role_customer" s = true /\ in_room "role_admin" s = false.
Proof.
  intro history.
  assert (H : exists s, In s (registry history)) by (eexists; left; reflexivity).
  destruct H as [s Hin]. exists s. split; [exact Hin |].
  destruct (registry_memberships history s Hin) as [_ Hrole].
  simpl in Hin. destruct Hin as [<- | []]. split.
  - apply (Hrole customer). reflexivity.
  - match goal with |- ?b = false => destruct b eqn:E end; [| reflexivity].
    apply (Hrole admin) in E. discriminate E.
Defined.

Lemma gets_one (conns : list Socket) (m : Message) (s : Socket) :
  gets conns [m] s <-> In s (delivered conns m).
Proof.
  unfold gets. split.
  - intros (m' & [<- | []] & H). exact H.
  - intro H. exists m. split; [now left | exact H].
Qed.

Lemma delivered_to_room_but (conns : list Socket) (sid : nat) (room ev : string)
    (c : Content) (s : Socket) :
  In s (delivered conns (mkMessage (to_room_but sid room) ev c))
  <-> In s conns /\ in_room room s = true /\ socket_id s <> sid.
Proof.
  unfold delivered. cbn [target]. rewrite filter_In, andb_true_iff, negb_true_iff, Nat.eqb_neq.
  tauto.
Qed.

(** X22: a direct notification reaches the addressee only.  After any
    history of connects, joins and leaves, the notification handler
    delivers to a connection exactly when a non-empty target id was
    given, the connection belongs to the user with that id, and it is
    not the sending connection; without a target nothing is sent. *)
Theorem sendNotification_reaches_only_the_target :
  forall (history : list Action) (now : Date) (sid : nat) (user : User)
         (targetUserId : option string) (type message : string) (s : Socket),
    gets (registry history) (on_sendNotification now sid user targetUserId type message) s
    <-> exists t, targetUserId = Some t /\ t <> ""
                  /\ In s (registry history) /\ socket_id s <> sid
                  /\ user_id (socket_user s) = t.
Proof.
  intros history now sid user targetUserId type message s.
  unfold on_sendNotification.
  destruct targetUserId as [t |].
  2: { split; [intros (m & [] & _) | intros (t & H & _); discriminate H]. }
  unfold string_truthy. destruct (String.eqb t "") eqn:Et; cbn [negb].
  - apply String.eqb_eq in Et.
    split; [intros (m & [] & _) | intros (t' & H & Hne & _)].
    injection H as <-. now elim Hne.
  - apply String.eqb_neq in Et. rewrite gets_one, delivered_to_room_but. split.
    + intros (Hin & Hroom & Hsid). exists t.
      apply (proj1 (registry_memberships_aux history s Hin)) in Hroom.
      repeat split; assumption.
    + intros (t' & H & _ & Hin & Hsid & Hu). injection H as <-.
      repeat split; try assumption.
      now apply (proj1 (registry_memberships_aux history s Hin)).
Qed.

(** X22, checked on a notification from the administrator to C2. *)
Lemma sendNotification_reaches_only_the_target_witness :
  gets (registry [connect 3 A1; connect 7 C2])
       (on_sendNotification 2000 3 A1 (Some "C2") "info" "hello") socket_C2.
Proof.
  apply sendNotification_reaches_only_the_target. exists "C2".
  split; [reflexivity | split; [discriminate | split; [| split]]].
  - right. left. reflexivity.
  - discriminate.
  - reflexivity.
Defined.

(** X23: who hears of a bulk operation.  After any history of connects,
    joins and leaves, the bulk-operation handler delivers to a
    connection exactly when it is not the sending one and its user is an
    administrator, or its user is a vendor and the sender is not an
    administrator; customers never receive it, whoever sends it. *)
Theorem bulkOperation_reaches_admins_and_vendors :
  forall (history : list Action) (now : Date) (sid : nat) (user : User)
         (operation : string) (ids : list string) (s : Socket),
    gets (registry history) (on_bulkOperation now sid user operation ids) s
    <-> In s (registry history) /\ socket_id s <> sid
        /\ (role (socket_user s) = admin
            \/ (role user <> admin /\ role (socket_user s) = vendor)).
Proof.
  intros history now sid user operation ids s.
  unfold on_bulkOperation, gets. split.
  - intros (m & Hm & Hd). destruct Hm as [<- | Hm].
    + apply delivered_to_room_but in Hd. destruct Hd as (Hin & Hroom & Hsid).
      apply (proj2 (registry_memberships_aux history s Hin) admin) in Hroom.
      repeat split; try assumption. now left.
    + destruct (Role_eqb (role user) admin) eqn:Er; cbn [negb] in Hm; [destruct Hm |].
      destruct Hm as [<- | []].
      apply delivered_to_room_but in Hd. destruct Hd as (Hin & Hroom & Hsid).
      apply (proj2 (registry_memberships_aux history s Hin) vendor) in Hroom.
      repeat split; try assumption. right. split; [| exact Hroom].
      intro H. apply Role_eqb_eq in H. rewrite H in Er. discriminate Er.
  - intros (Hin & Hsid & [Ha | [Hu Hv]]).
    + eexists. split; [left; reflexivity |].
      apply delivered_to_room_but. repeat split; try assumption.
      now apply (proj2 (registry_memberships_aux history s Hin) admin).
    + destruct (Role_eqb (role user) admin) eqn:Er;
        [apply Role_eqb_eq in Er; now elim Hu |].
      cbn [negb]. eexists. split; [right; left; reflexivity |].
      apply delivered_to_room_but. repeat split; try assumption.
      now apply (proj2 (registry_memberships_aux history s Hin) vendor).
Qed.

(** X23, checked on a vendor's bulk operation reaching the
    administrator. *)
Lemma bulkOperation_reaches_admins_and_vendors_witness :
  gets (registry [connect 3 A1; connect 5 V1; connect 7 C2])
       (on_bulkOperation 2000 5 V1 "update" ["T1"]) (mkSocket 3 A1 ["user_A1"; "role_admin"]).
Proof.
  apply bulkOperation_reaches_admins_and_vendors.
  split; [left; reflexivity | split; [discriminate | left; reflexivity]].
Defined.

(** X24: who hears of a status change.  After any history of connects,
    joins and leaves, the status-change handler delivers to a connection
    exactly when it is not the sending one and it has joined the task
    room, or its user is an administrator or a vendor: a customer
    receives the event if and only if their connection joined that
    task's room. *)
Theorem statusChange_reach :
  forall (history : list Action) (sid : nat) (taskId data : string) (s : Socket),
    gets (registry history) (on_statusChange sid taskId data) s
    <-> In s (registry history) /\ socket_id s <> sid
        /\ (in_room ("task_" ++ taskId)%string s = true
            \/ role (socket_user s) = admin \/ role (socket_user s) = vendor).
Proof.
  intros history sid taskId data s. unfold on_statusChange, gets. split.
  - intros (m & Hm & Hd). destruct Hm as [<- | [<- | [<- | []]]];
      apply delivered_to_room_but in Hd; destruct Hd as (Hin & Hroom & Hsid);
      (split; [exact Hin | split; [exact Hsid |]]).
    + now left.
    + right. left. now apply (proj2 (registry_memberships_aux history s Hin) admin).
    + right. right. now apply (proj2 (registry_memberships_aux history s Hin) vendor).
  - intros (Hin & Hsid & [Ht | [Ha | Hv]]).
    + eexists. split; [left; reflexivity |].
      apply delivered_to_room_but. repeat split; assumption.
    + eexists. split; [right; left; reflexivity |].
      apply delivered_to_room_but. repeat split; try assumption.
      now apply (proj2 (registry_memberships_aux history s Hin) admin).
    + eexists. split; [right; right; left; reflexivity |].
      apply delivered_to_room_but. repeat split; try assumption.
      now apply (proj2 (registry_memberships_aux history s Hin) vendor).
Qed.

(** X24, checked on the customer C2, who did not join the room of T1 and
    so does not hear of its status change. *)
Lemma statusChange_reach_witness :
  ~ gets (registry [connect 3 A1; connect 7 C2]) (on_statusChange 3 "T1" "done") socket_C2.
Proof.
  intro H. apply statusChange_reach in H. destruct H as (_ & _ & [H | [H | H]]);
    discriminate H.
Defined.

Lemma filter_out_absent (room : string) (rs : list string) :
  existsb (String.eqb room) rs = false ->
  filter (fun r => negb (String.eqb room r)) rs = rs.
Proof.
  induction rs as [| r rs IH]; simpl; [reflexivity |].
  destruct (String.eqb room r); simpl; [discriminate |].
  intro H. now rewrite IH.
Qed.

Lemma existsb_filter_out (room : string) (rs : list string) :
  existsb (String.eqb room) (filter (fun r => negb (String.eqb room r)) rs) = false.
Proof.
  induction rs as [| r rs IH]; simpl; [reflexivity |].
  destruct (String.eqb room r) eqn:E; simpl; [exact IH | now rewrite E].
Qed.

(** X25: task rooms are open to every connection.  Joining puts every
    connection with that socket id into the room of the task named,
    whoever its user is and whether or not such a task exists or is
    visible to them, and from then on it receives the comments other
    connections relay to that room; leaving takes it out again; a leave
    after a join restores the rooms of a connection that was not in the
    room before; connections with another socket id are not affected. *)
Theorem task_rooms_are_open :
  forall (conns : list Socket) (sid : nat) (taskId : string),
    let room := ("task_" ++ taskId)%string in
    (forall s', In s' (on_joinTask sid taskId conns) -> socket_id s' = sid ->
                in_room room s' = true)
    /\ (forall s, In s conns -> socket_id s = sid ->
                  exists s', In s' (on_joinTask sid taskId conns)
                             /\ socket_id s' = sid /\ socket_user s' = socket_user s)
    /\ (forall s' now other author c,
          In s' (on_joinTask sid taskId conns) -> socket_id s' = sid -> other <> sid ->
          gets (on_joinTask sid taskId conns) (on_newComment now other author taskId c) s')
    /\ (forall s', In s' (on_leaveTask sid taskId conns) -> socket_id s' = sid ->
                   in_room room s' = false)
    /\ (forall s, In s conns -> socket_id s = sid -> in_room room s = false ->
                  In s (on_leaveTask sid taskId (on_joinTask sid taskId conns)))
    /\ (forall s, socket_id s <> sid ->
                  (In s (on_joinTask sid taskId conns) <-> In s conns)
                  /\ (In s (on_leaveTask sid taskId conns) <-> In s conns)).
Proof.
  intros conns sid taskId room.
  assert (Hjoin : forall s', In s' (on_joinTask sid taskId conns) -> socket_id s' = sid ->
                             in_room room s' = true).
  { intros s' Hin Hsid. unfold on_joinTask, update_rooms in Hin. fold room in Hin.
    apply in_map_iff in Hin. destruct Hin as (s & E & Hin).
    destruct (Nat.eqb (socket_id s) sid) eqn:Es.
    - subst s'. unfold in_room. cbn [rooms].
      destruct (existsb (String.eqb room) (rooms s)) eqn:Er; [exact Er |].
      rewrite existsb_app. simpl. rewrite String.eqb_refl. apply orb_true_r.
    - subst s'. apply Nat.eqb_neq in Es. now elim Es. }
  split; [exact Hjoin |]. split; [| split; [| split; [| split]]].
  - intros s Hin Hsid. unfold on_joinTask, update_rooms. fold room.
    eexists. split; [apply in_map; exact Hin |].
    apply Nat.eqb_eq in Hsid. rewrite Hsid. apply Nat.eqb_eq in Hsid.
    split; [exact Hsid | reflexivity].
  - intros s' now other author c Hin Hsid Hne. unfold on_newComment.
    apply gets_one, delivered_to_room_but. fold room.
    split; [exact Hin | split; [now apply Hjoin | congruence]].
  - intros s' Hin Hsid. unfold on_leaveTask, update_rooms in Hin. fold room in Hin.
    apply in_map_iff in Hin. destruct Hin as (s & E & Hin).
    destruct (Nat.eqb (socket_id s) sid) eqn:Es.
    + subst s'. unfold in_room. cbn [rooms]. apply existsb_filter_out.
    + subst s'. apply Nat.eqb_neq in Es. now elim Es.
  - intros s Hin Hsid Hout. unfold on_leaveTask, on_joinTask, update_rooms. fold room.
    rewrite map_map. apply in_map_iff. exists s. split; [| exact Hin].
    apply Nat.eqb_eq in Hsid. rewrite Hsid. cbn [socket_id]. rewrite Hsid.
    cbn [rooms socket_user socket_id]. unfold in_room in Hout. rewrite Hout.
    rewrite filter_app, (filter_out_absent room (rooms s) Hout). simpl.
    rewrite String.eqb_refl. simpl. rewrite app_nil_r. destruct s; reflexivity.
  - intros s Hsid. apply Nat.eqb_neq in Hsid.
    unfold on_joinTask, on_leaveTask, update_rooms. split; split; intro Hin.
    + apply in_map_iff in Hin. destruct Hin as (s0 & E & Hin).
      destruct (Nat.eqb (socket_id s0) sid) eqn:E0; subst s; [| exact Hin].
      cbn [socket_id] in Hsid. rewrite E0 in Hsid. discriminate Hsid.
    + apply in_map_iff. exists s. rewrite Hsid. split; [reflexivity | exact Hin].
    + apply in_map_iff in Hin. destruct Hin as (s0 & E & Hin).
      destruct (Nat.eqb (socket_id s0) sid) eqn:E0; subst s; [| exact Hin].
      cbn [socket_id] in Hsid. rewrite E0 in Hsid. discriminate Hsid.
    + apply in_map_iff. exists s. rewrite Hsid. split; [reflexivity | exact Hin].
Qed.

(** X25, checked on the customer C2 joining the room of T1, a task
    assigned to somebody else. *)
Lemma task_rooms_are_open_witness :
  exists s', In s' (on_joinTask 7 "T1" conns0)
             /\ socket_user s' = C2 /\ in_room "task_T1" s' = true.
Proof.
  destruct (task_rooms_are_open conns0 7 "T1") as (Hjoin & Hex & _).
  assert (Hin : In socket_C2 conns0) by (right; left; reflexivity).
  destruct (Hex socket_C2 Hin eq_refl) as (s' & Hin' & Hsid & Hu).
  exists s'. split; [exact Hin' | split; [exact Hu | exact (Hjoin s' Hin' Hsid)]].
Defined.

(* ===================================================================== *)
(** ** Further properties: derived task fields                            *)
(* ===================================================================== *)



(* ===================================================================== *)
(** ** Further properties: what an update reaches                         *)
(* ===================================================================== *)

Lemma Task_replace_ids (t' : Task) (ts : list Task) :
  map task_id (Task_replace t' ts) = map task_id ts.
Proof.
  unfold Task_replace. induction ts as [| t ts IH]; simpl; [reflexivity |].
  destruct (String.eqb (task_id t) (task_id t')) eqn:E.
  - apply String.eqb_eq in E. now rewrite E, IH.
  - now rewrite IH.
Qed.

Lemma Task_findById_replace_other (id : ObjectId) (t' : Task) (ts : list Task) :
  id <> task_id t' ->
  Task_findById id (Task_replace t' ts) = Task_findById id ts.
Proof.
  unfold Task_findById, Task_replace. intro Hne.
  induction ts as [| t ts IH]; simpl; [reflexivity |].
  destruct (String.eqb (task_id t) (task_id t')) eqn:E.
  - apply String.eqb_eq in E. simpl.
    assert (E1 : String.eqb (task_id t') id = false) by (apply String.eqb_neq; congruence).
    assert (E2 : String.eqb (task_id t) id = false) by (apply String.eqb_neq; congruence).
    rewrite E1, E2. exact IH.
  - simpl. destruct (String.eqb (task_id t) id); [reflexivity | exact IH].
Qed.

(** X27: an update reaches one task and only the paths of the body.
    Whatever the request, the users, the sequence of task ids and every
    task with another id are as before, and an answer other than 200
    comes with no write and no event.  On success the stored task keeps
    its id and creation date and gets updatedAt from the clock; title,
    status, archive flag, creator, comment list and completion date keep
    their value when the body does not name them and take the value of
    the body when it does -- the comment list included, which this route
    replaces as a whole. *)
Theorem updateTask_touches_only_that_task :
  forall (now : Date) (db : Db) (req : Req Patch),
    let r := updateTask now db req in
    users (db_after r) = users db
    /\ map task_id (tasks (db_after r)) = map task_id (tasks db)
    /\ (forall id, id <> params_id req ->
                   Task_findById id (tasks (db_after r)) = Task_findById id (tasks db))
    /\ (statusCode (response r) <> 200%nat -> db_after r = db /\ emitted r = [])
    /\ (forall task,
          statusCode (response r) = 200%nat ->
          Task_findById (params_id req) (tasks db) = Some task ->
          exists task',
            Task_findById (params_id req) (tasks (db_after r)) = Some task'
            /\ task_id task' = task_id task /\ createdAt task' = createdAt task
            /\ updatedAt task' = now
            /\ title task' = or_keep (patch_title (body req)) (title task)
            /\ status task' = or_keep (patch_status (body req)) (status task)
            /\ isArchived task' = or_keep (patch_isArchived (body req)) (isArchived task)
            /\ createdBy task' = or_keep (patch_createdBy (body req)) (createdBy task)
            /\ comments task' = or_keep (patch_comments (body req)) (comments task)
            /\ completedAt task'
               = or_keep (patch_completedAt (body req)) (completedAt task)).
Proof.
  intros now db req r. unfold r, updateTask, Task_findByIdAndUpdate.
  destruct (negb (length (validationErrors req) =? 0)%nat).
  { repeat split; try reflexivity. intros task H. discriminate H. }
  destruct (Task_findById (params_id req) (tasks db)) as [task |] eqn:Ht.
  2: { repeat split; try reflexivity. intros task H. discriminate H. }
  destruct (verify_assignee db (body req)) as [update |] eqn:Hver.
  2: { repeat split; try reflexivity. intros task' H. discriminate H. }
  cbn [response db_after statusCode users tasks emitted].
  destruct (Task_findById_Some _ _ _ Ht) as [_ Hid].
  split; [reflexivity |]. split; [apply Task_replace_ids |].
  split; [| split].
  - intros id Hne. apply Task_findById_replace_other.
    rewrite applyUpdate_task_id. congruence.
  - intro H. now elim H.
  - intros task0 _ E. injection E as <-.
    exists (applyUpdate update now task).
    split; [apply Task_findById_replace with (t := task); [exact Ht | exact Hid] |].
    unfold verify_assignee in Hver.
    destruct (patch_assigneeId (body req)) as [a |].
    + destruct (string_truthy a).
      * destruct (User_findById (Some a) (users db)); [| discriminate Hver].
        injection Hver as <-. repeat split.
      * injection Hver as <-. repeat split.
    + injection Hver as <-. repeat split.
Qed.

(** X27, checked on a customer replacing the comments of their task. *)
Lemma updateTask_touches_only_that_task_witness :
  let req := mkReq None "T1"
               (mkPatch None None None None None None None None None None None
                        (Some []) (Some true) None)
               [] (Some C1) false in
  exists task', Task_findById "T1" (tasks (db_after (updateTask 2000 db0 req))) = Some task'
                /\ comments task' = [] /\ isArchived task' = true.
Proof.
  intro req.
  destruct (updateTask_touches_only_that_task 2000 db0 req)
    as (_ & _ & _ & _ & H).
  destruct (H T1 eq_refl eq_refl) as (task' & Hf & _ & _ & _ & _ & _ & Har & _ & Hco & _).
  exists task'. split; [exact Hf | split; [exact Hco | exact Har]].
Defined.

Lemma matches_ids_only (env : Env) (ids : list ObjectId) (t : Task) :
  matches env (mkFilter (Some ids) None None None None None None) t
  = existsb (String.eqb (task_id t)) ids.
Proof. unfold matches. simpl. now rewrite !andb_true_r. Qed.

(** X28: the event of a bulk update carries every named task.  When a
    bulk update of a resolved actor is answered 200 with [req.io]
    attached, exactly one event is emitted, to every connection, and its
    payload is the list of the stored tasks whose id was submitted, as
    they are after the update; for a vendor this includes the submitted
    tasks the vendor does not own, which the update left untouched. *)
Theorem bulkUpdate_event_lists_every_named_task :
  forall (env : Env) (now : Date) (db : Db) (req : Req BulkBody) (user : User),
    req_user req = Some user ->
    req_io req = true ->
    let r := bulkUpdateTasks env now db req in
    statusCode (response r) = 200%nat ->
    exists ts,
      emitted r = [io_emit "tasksBulkUpdated" (EvTasks ts)]
      /\ (forall conns, recipients conns (io_emit "tasksBulkUpdated" (EvTasks ts)) = conns)
      /\ (forall t, In t ts
                    <-> In t (tasks (db_after r)) /\ In (task_id t) (taskIds (body req)))
      /\ (role user = vendor ->
          forall t, In t (tasks db) -> In (task_id t) (taskIds (body req)) ->
                    owned user t = false -> In t ts).
Proof.
  intros env now db req user Hu Hio r. unfold r, bulkUpdateTasks.
  destruct (negb (length (validationErrors req) =? 0)%nat); [intro H; discriminate H |].
  destruct (verify_assignee db (updates (body req))) as [update |];
    [| intro H; discriminate H].
  rewrite Hu, Hio. unfold Task_updateMany. cbn [response db_after emitted tasks emit_if].
  intros _. eexists. split; [reflexivity |]. split; [reflexivity |].
  set (f := fun t => if matches env (bulkUpdateTasks_query user (taskIds (body req))) t
                     then applyUpdate update now t else t).
  assert (Hin : forall t, In t (Task_find env
                                  (mkFilter (Some (taskIds (body req))) None None None None
                                            None None)
                                  (map f (tasks db)))
                          <-> In t (map f (tasks db)) /\ In (task_id t) (taskIds (body req))).
  { intro t. unfold Task_find. rewrite filter_In, matches_ids_only, existsb_eqb_In.
    tauto. }
  split; [exact Hin |].
  intros Hr t Ht Hid Ho. apply Hin. split; [| exact Hid].
  apply in_map_iff. exists t. split; [| exact Ht].
  unfold f. rewrite (matches_bulk_vendor env user _ t Hr), Ho, andb_false_r. reflexivity.
Qed.

(** X28, checked on the vendor V1 submitting T1 and the foreign T2: the
    broadcast carries T2. *)
Lemma bulkUpdate_event_lists_every_named_task_witness :
  exists ts,
    emitted (bulkUpdateTasks env0 2000 db0
               (mkReq None "" (mkBulkBody ["T1"; "T2"] patch_priority_high) [] (Some V1) true))
    = [io_emit "tasksBulkUpdated" (EvTasks ts)]
    /\ In T2 ts.
Proof.
  destruct (bulkUpdate_event_lists_every_named_task env0 2000 db0
              (mkReq None "" (mkBulkBody ["T1"; "T2"] patch_priority_high) [] (Some V1) true)
              V1 eq_refl eq_refl eq_refl) as (ts & He & _ & _ & Hv).
  exists ts. split; [exact He |].
  apply (Hv eq_refl T2).
  - right. left. reflexivity.
  - right. left. reflexivity.
  - reflexivity.
Defined.

(* ===================================================================== *)
(** ** Further properties: the user collection                            *)
(* ===================================================================== *)

(** X29: what the user listing returns.  When the listing answers with
    users, each of them is a stored user with the password projected
    away, has the role the query names, if any, and is active exactly
    when the isActive parameter is the text "true": any other text,
    "1" or the empty string included, selects the users that are not
    active.  The page is no longer than the limit, the total counts all
    matching users, and nothing is written.  Page and limit are at least
    1, as the validation of the route demands. *)
Theorem getUsers_filters :
  forall (env : Env) (db : Db) (req : Req UsersQuery) (us : list User) (total : nat),
    (1 <= users_page (body req))%nat ->
    (1 <= users_limit (body req))%nat ->
    data (response (getUsers env db req)) = DataUsers us total ->
    (forall u, In u us ->
               password u = ""
               /\ exists stored,
                    In stored (users db) /\ u = without_password stored
                    /\ (forall r, users_role (body req) = Some r -> role stored = r)
                    /\ (forall s, users_isActive (body req) = Some s ->
                                  isActive stored = String.eqb s "true"))
    /\ (length us <= users_limit (body req))%nat
    /\ total = length (filter (getUsers_matches env (body req)) (users db))
    /\ db_after (getUsers env db req) = db.
Proof.
  intros env db req us total _ _ Hdata. unfold getUsers in *.
  destruct (negb (length (validationErrors req) =? 0)%nat); [discriminate Hdata |].
  simpl in Hdata. injection Hdata as <- <-.
  split; [| split; [| split; reflexivity]].
  - intros u Hin. apply in_map_iff in Hin. destruct Hin as (stored & <- & Hin).
    split; [reflexivity |]. exists stored.
    apply In_firstn_In, In_skipn_In, filter_In in Hin. destruct Hin as [Hin Hm].
    split; [exact Hin |]. split; [reflexivity |].
    unfold getUsers_matches in Hm.
    apply andb_prop in Hm. destruct Hm as [Hm _].
    apply andb_prop in Hm. destruct Hm as [Hrole Hact].
    split.
    + intros r Hr. rewrite Hr in Hrole. simpl in Hrole. now apply Role_eqb_eq.
    + intros s Hs. rewrite Hs in Hact. simpl in Hact. now apply Bool.eqb_prop.
  - rewrite length_map. apply firstn_le_length.
Qed.

(** X29, checked on the parameter isActive=1: the deactivated V9 is
    listed. *)
Lemma getUsers_filters_witness :
  exists stored,
    In stored (users db0) /\ without_password V9 = without_password stored
    /\ isActive stored = false.
Proof.
  destruct (proj2 (proj1 (getUsers_filters env0 db0
                         (mkReq None "" (mkUsersQuery None (Some "1") None 1 50) [] None false)
                         [without_password V9] 1%nat (le_n 1) ltac:(simpl; lia) eq_refl)
                  (without_password V9) (or_introl eq_refl)))
    as (stored & Hin & He & _ & Ha).
  exists stored. split; [exact Hin | split; [exact He | exact (Ha "1" eq_refl)]].
Defined.

(** X30: deactivation by the user update handler takes effect at once.
    When the handler answers 200 to a body that sets isActive to false,
    every later request whose token names that user under "userId" is
    answered 401 by [protect], the rest of the chain does not run, and a
    socket handshake whose token names the user under "id" is
    refused. *)
Theorem updateUser_deactivation_locks_out :
  forall (env : Env) (db : Db) (req : Req UserUpdate),
    let r := updateUser db req in
    statusCode (response r) = 200%nat ->
    update_isActive (body req) = Some false ->
    (forall (B : Type) (later : Date) (req' : Req B) (claims : Payload) (key : string)
            (exp : option Z) (k : Req B -> Result),
        headers_authorization req' = bearer (Signed claims key exp) ->
        payload_userId claims = Some (params_id req) ->
        exists res, via (protect env later (db_after r) req') (db_after r) k
                    = reply res (db_after r)
                    /\ Unauthorized res)
    /\ (forall (later : Date) (claims : Payload) (key : string) (exp : option Z),
        payload_id claims = Some (params_id req) ->
        refused (authenticateSocket env later (db_after r) (Some (Signed claims key exp)))).
Proof.
  intros env db req r H200 Hact. unfold r, updateUser in *.
  destruct (User_findById (Some (params_id req)) (users db)) as [user |] eqn:Hu;
    [| discriminate H200].
  match type of H200 with
  | statusCode (response (if ?c then _ else _)) = _ => destruct c; [discriminate H200 |]
  end.
  cbn [db_after users] in *.
  match goal with |- context [User_replace ?u _] => set (updated := u) end.
  assert (Hfind : User_findById (Some (params_id req)) (User_replace updated (users db))
                  = Some updated).
  { apply User_findById_replace with (u := user); [exact Hu |].
    exact (proj2 (User_findById_Some _ _ _ Hu)). }
  assert (Hoff : isActive updated = false).
  { unfold updated. cbn [isActive]. rewrite Hact. reflexivity. }
  split.
  - intros B later req' claims key exp k Hh Hc. apply via_protect_denied.
    intros req'' Hn. apply protect_Next in Hn.
    destruct Hn as (h & tok & decoded & u & Hh' & Htok & Hv & Hf & Ha & _).
    rewrite Hh in Hh'. injection Hh' as <-. simpl in Htok. injection Htok as <-.
    apply jwt_verify_Signed in Hv. subst decoded.
    rewrite Hc in Hf. cbn [users] in Hf. rewrite Hfind in Hf. injection Hf as <-.
    congruence.
  - intros later claims key exp Hc. apply not_inl_refused. intros u Hin.
    apply authenticateSocket_inl in Hin. destruct Hin as (decoded & Hv & Hf & Ha).
    apply jwt_verify_Signed in Hv. subst decoded.
    rewrite Hc in Hf. cbn [users] in Hf. rewrite Hfind in Hf. injection Hf as <-.
    congruence.
Qed.

(** X30, checked on the deactivation of C1, whose login token then no
    longer opens GET /api/tasks/T1. *)
Lemma updateUser_deactivation_locks_out_witness :
  let r := updateUser db0 (mkReq None "C1" (mkUserUpdate None None None (Some false))
                                 [] (Some A1) false) in
  exists res,
    GET_task env0 2000 (db_after r) (mkReq (bearer (login_token env0 "C1")) "T1" tt [] None false)
    = reply res (db_after r)
    /\ Unauthorized res.
Proof.
  intro r.
  exact (proj1 (updateUser_deactivation_locks_out env0 db0
                  (mkReq None "C1" (mkUserUpdate None None None (Some false))
                         [] (Some A1) false) eq_refl eq_refl)
               unit 2000
               (mkReq (bearer (login_token env0 "C1")) "T1" tt [] None false)
               (mkPayload None (Some "C1")) "s3cret" None
               (getTask (db_after r)) eq_refl eq_refl).
Defined.
